(** * admin-bro-sequelizejs: filter translation and parameter normalisation

    A shallow embedding of [src/utils/convert-filter.js] and of the
    [Resource] adapter ([parseParams], [find], [create], [update]), with the
    JavaScript built-ins they call ([Number], [String], property access,
    truthiness, object spread) and the [escape-regexp] package. *)

From Stdlib Require Import ZArith NArith Ascii String List Bool DecimalString.
From stdpp Require Import strings gmap.

Local Open Scope string_scope.
Set Warnings "-register-all".

(** ** JavaScript values and built-ins *)

Module JS.

(** A JavaScript number, a binary64.  A finite double is held by the
    decimal that prints it: [Finite neg m e] is the double nearest to
    [(-1)^neg * m * 10^e], where [m * 10^e] is the shortest decimal that
    rounds to that double (the digits of Number::toString), with [m] not a
    multiple of ten unless the number is a zero ([m = 0], [e = 0]). *)
Inductive number : Type :=
| NaN
| Infinity (neg : bool)
| Finite (neg : bool) (m : N) (e : Z).

Definition isNaN (n : number) : bool :=
  match n with NaN => true | _ => false end.

Definition is_zero (n : number) : bool :=
  match n with Finite _ 0%N _ => true | _ => false end.

(** JSON-like data, as the admin form and its query string deliver them:
    primitives and plain objects with string keys.  A property never holds
    a function, and arrays do not occur. *)
Inductive val : Type :=
| VUndefined
| VNull
| VBool (b : bool)
| VNum (n : number)
| VStr (s : string)
| VObj (props : gmap string val).

(** Error objects; [name] is what [error.name] reads. *)
Record error : Type := mkError {
  name : string;
  message : string;
  errors : list (string * string)
}.

Definition TypeError (msg : string) : error := mkError "TypeError" msg [].
Definition Error (msg : string) : error := mkError "Error" msg [].

(** Completion of an evaluation: a value, or a thrown error. *)
Inductive result (A : Type) : Type :=
| Ok (a : A)
| Throw (e : error).
Arguments Ok {A} a.
Arguments Throw {A} e.

Definition bind {A B} (r : result A) (k : A -> result B) : result B :=
  match r with Ok a => k a | Throw e => Throw e end.

Definition succeeds {A} (r : result A) : bool :=
  match r with Ok _ => true | Throw _ => false end.

(** *** Digits *)

Definition digit_in (radix : N) (c : ascii) : option N :=
  let n := N_of_ascii c in
  let d :=
    if (48 <=? n)%N && (n <=? 57)%N then Some (n - 48)%N
    else if (97 <=? n)%N && (n <=? 102)%N then Some (n - 87)%N
    else if (65 <=? n)%N && (n <=? 70)%N then Some (n - 55)%N
    else None in
  match d with
  | Some k => if (k <? radix)%N then Some k else None
  | None => None
  end.

Fixpoint span_digits (s : list ascii) : list N * list ascii :=
  match s with
  | [] => ([], [])
  | c :: r =>
      match digit_in 10 c with
      | Some d => let '(ds, r') := span_digits r in (d :: ds, r')
      | None => ([], s)
      end
  end.

Definition N_of_digits (radix : N) (ds : list N) : N :=
  fold_left (fun acc d => radix * acc + d)%N ds 0%N.

Fixpoint digits_of_uint (u : Decimal.uint) : list N :=
  match u with
  | Decimal.Nil => []
  | Decimal.D0 u => 0%N :: digits_of_uint u
  | Decimal.D1 u => 1%N :: digits_of_uint u
  | Decimal.D2 u => 2%N :: digits_of_uint u
  | Decimal.D3 u => 3%N :: digits_of_uint u
  | Decimal.D4 u => 4%N :: digits_of_uint u
  | Decimal.D5 u => 5%N :: digits_of_uint u
  | Decimal.D6 u => 6%N :: digits_of_uint u
  | Decimal.D7 u => 7%N :: digits_of_uint u
  | Decimal.D8 u => 8%N :: digits_of_uint u
  | Decimal.D9 u => 9%N :: digits_of_uint u
  end.

Definition digits_of_N (n : N) : list N := digits_of_uint (N.to_uint n).

Fixpoint drop_zeros (ds : list N) : list N :=
  match ds with
  | 0%N :: r => drop_zeros r
  | _ => ds
  end.

(** The number denoted by the digit string [ds] scaled by [10^e], in
    canonical form. *)
Definition decimal (neg : bool) (ds : list N) (e : Z) : number :=
  let sig := rev (drop_zeros (rev ds)) in
  let m := N_of_digits 10 sig in
  if (m =? 0)%N then Finite neg 0 0
  else Finite neg m (e + Z.of_nat (length ds - length sig)).

(** *** Rounding to binary64 *)

(** The magnitude of a double: zero, infinity, or [q * 2^e] with
    [q < 2^53], where [2^52 <= q] (normal) or [e = -1074] (subnormal). *)
Inductive magnitude : Type :=
| M_zero
| M_inf
| M_fin (q : N) (e : Z).

Definition magnitude_eqb (a b : magnitude) : bool :=
  match a, b with
  | M_zero, M_zero | M_inf, M_inf => true
  | M_fin q e, M_fin q' e' => (q =? q')%N && (e =? e')%Z
  | _, _ => false
  end.

(** [a / b] rounded to the nearest integer, ties to even. *)
Definition div_nearest_even (a b : N) : N :=
  let q := (a / b)%N in
  let r := (a mod b)%N in
  match (2 * r ?= b)%N with
  | Lt => q
  | Gt => (q + 1)%N
  | Eq => if N.even q then q else (q + 1)%N
  end.

(** The double nearest to [m * 10^x], ties to even.  A decimal above
    [10^400] is past the largest double and one below [10^-400] is under
    half the smallest, whatever its digits. *)
Definition round_binary64 (m : N) (x : Z) : magnitude :=
  if (m =? 0)%N then M_zero
  else
    let d := Z.of_nat (length (digits_of_N m)) in
    if (400 <? x + d)%Z then M_inf
    else if (x + d <? -400)%Z then M_zero
    else
      let num := if (0 <=? x)%Z then (m * 10 ^ Z.to_N x)%N else m in
      let den := if (0 <=? x)%Z then 1%N else (10 ^ Z.to_N (- x))%N in
      let scaled (e : Z) : N * N :=
        if (0 <=? e)%Z then (num, (den * 2 ^ Z.to_N e)%N)
        else ((num * 2 ^ Z.to_N (- e))%N, den) in
      let e0 := (Z.of_N (N.log2 num) - Z.of_N (N.log2 den) - 52)%Z in
      let e1 :=
        let '(a, b) := scaled e0 in
        if (a / b <? 2 ^ 52)%N then (e0 - 1)%Z else e0 in
      let e := Z.max e1 (-1074) in
      let '(a, b) := scaled e in
      let q := div_nearest_even a b in
      if (q =? 0)%N then M_zero
      else if (q =? 2 ^ 53)%N then
        if (971 <=? e)%Z then M_inf else M_fin (2 ^ 52) (e + 1)
      else if (971 <? e)%Z then M_inf
      else M_fin q e.

(** The digits of [q * 2^e], which is a finite decimal, and the power of
    ten that scales them. *)
Definition exact_decimal (q : N) (e : Z) : list N * Z :=
  if (0 <=? e)%Z then (digits_of_N (q * 2 ^ Z.to_N e), 0%Z)
  else (digits_of_N (q * 5 ^ Z.to_N (- e)), e).

(** The shortest decimal that rounds to the double [q * 2^e]: with [k]
    digits, the decimal below and the decimal above the double are tried,
    the nearer one first; seventeen digits always suffice. *)
Fixpoint shortest_from (tries k : nat) (q : N) (e : Z) (ds : list N) (x : Z)
  : N * Z :=
  match tries with
  | O => (N_of_digits 10 ds, x)
  | S tries' =>
      if (length ds <=? k)%nat then (N_of_digits 10 ds, x)
      else
        let lo := N_of_digits 10 (take k ds) in
        let rest := N_of_digits 10 (drop k ds) in
        let unit := (10 ^ N.of_nat (length ds - k))%N in
        let x' := (x + Z.of_nat (length ds - k))%Z in
        let fits (c : N) := magnitude_eqb (round_binary64 c x') (M_fin q e) in
        let '(near, far) :=
          if (2 * rest <=? unit)%N then (lo, (lo + 1)%N)
          else ((lo + 1)%N, lo) in
        if fits near then (near, x')
        else if fits far then (far, x')
        else shortest_from tries' (S k) q e ds x
  end.

Definition shortest (q : N) (e : Z) : N * Z :=
  let '(ds, x) := exact_decimal q e in
  shortest_from 17 1 q e ds x.

(** The number that a decimal literal denotes: the digits [ds] scaled by
    [10^x], rounded to the nearest double. *)
Definition binary64 (neg : bool) (ds : list N) (x : Z) : number :=
  match round_binary64 (N_of_digits 10 ds) x with
  | M_zero => Finite neg 0 0
  | M_inf => Infinity neg
  | M_fin q e => let '(m, x') := shortest q e in decimal neg (digits_of_N m) x'
  end.

Definition of_N (n : N) : number := binary64 false (digits_of_N n) 0.

(** *** StringToNumber (ECMA-262, 7.1.4.1.1) *)

(** White space and line terminators among the code units below 256. *)
Definition is_white (c : ascii) : bool :=
  let n := N_of_ascii c in
  ((9 <=? n)%N && (n <=? 13)%N) || (n =? 32)%N || (n =? 160)%N.

Fixpoint trim_left (s : list ascii) : list ascii :=
  match s with
  | c :: r => if is_white c then trim_left r else s
  | [] => []
  end.

Definition trim (s : list ascii) : list ascii :=
  rev (trim_left (rev (trim_left s))).

Definition all_digits (radix : N) (s : list ascii) : option (list N) :=
  match s with
  | [] => None
  | _ => mapM (digit_in radix) s
  end.

Definition parse_radix (radix : N) (s : list ascii) : number :=
  match all_digits radix s with
  | Some ds => of_N (N_of_digits radix ds)
  | None => NaN
  end.

(** ExponentPart, or nothing, up to the end of the literal. *)
Definition parse_exponent (s : list ascii) : option Z :=
  match s with
  | [] => Some 0%Z
  | c :: r =>
      if (Ascii.eqb c "e" || Ascii.eqb c "E")%char then
        let '(eneg, r1) :=
          match r with
          | "-"%char :: r' => (true, r')
          | "+"%char :: r' => (false, r')
          | _ => (false, r)
          end in
        match all_digits 10 r1 with
        | Some ds =>
            let x := Z.of_N (N_of_digits 10 ds) in
            Some (if eneg then (- x)%Z else x)
        | None => None
        end
      else None
  end.

(** StrUnsignedDecimalLiteral. *)
Definition parse_unsigned (neg : bool) (s : list ascii) : number :=
  if decide (s = list_ascii_of_string "Infinity") then Infinity neg
  else
    let '(ip, r1) := span_digits s in
    let '(fp, r2) :=
      match r1 with
      | "."%char :: r => span_digits r
      | _ => ([], r1)
      end in
    match (ip ++ fp)%list with
    | [] => NaN
    | ds =>
        match parse_exponent r2 with
        | Some x => binary64 neg ds (x - Z.of_nat (length fp))
        | None => NaN
        end
    end.

Definition StringToNumber (str : string) : number :=
  match trim (list_ascii_of_string str) with
  | [] => Finite false 0 0
  | "0"%char :: "x"%char :: r | "0"%char :: "X"%char :: r => parse_radix 16 r
  | "0"%char :: "o"%char :: r | "0"%char :: "O"%char :: r => parse_radix 8 r
  | "0"%char :: "b"%char :: r | "0"%char :: "B"%char :: r => parse_radix 2 r
  | "-"%char :: r => parse_unsigned true r
  | "+"%char :: r => parse_unsigned false r
  | s => parse_unsigned false s
  end.

(** *** Number::toString, radix 10 (ECMA-262, 6.1.6.1.20) *)

Definition string_of_N (n : N) : string :=
  NilZero.string_of_uint (N.to_uint n).

Fixpoint zeros (n : nat) : string :=
  match n with O => "" | S k => String "0" (zeros k) end.

Definition string_take (n : nat) (s : string) : string := substring 0 n s.
Definition string_drop (n : nat) (s : string) : string :=
  substring n (String.length s - n) s.

Definition number_to_string (x : number) : string :=
  match x with
  | NaN => "NaN"
  | Infinity neg => if neg then "-Infinity" else "Infinity"
  | Finite neg m e =>
      if (m =? 0)%N then "0"
      else
        let s := string_of_N m in
        let k := Z.of_nat (String.length s) in
        let n := (e + k)%Z in
        let body :=
          if (k <=? n)%Z && (n <=? 21)%Z then
            s +:+ zeros (Z.to_nat (n - k))
          else if (0 <? n)%Z && (n <=? 21)%Z then
            string_take (Z.to_nat n) s +:+ "." +:+ string_drop (Z.to_nat n) s
          else if (-6 <? n)%Z && (n <=? 0)%Z then
            "0." +:+ zeros (Z.to_nat (- n)) +:+ s
          else
            let x := (n - 1)%Z in
            let sgn := if (x <? 0)%Z then "-" else "+" in
            let ex := string_of_N (Z.to_N (Z.abs x)) in
            if (k =? 1)%Z then s +:+ "e" +:+ sgn +:+ ex
            else string_take 1 s +:+ "." +:+ string_drop 1 s
                 +:+ "e" +:+ sgn +:+ ex in
        if neg then "-" +:+ body else body
  end.

(** *** Conversions of values *)

(** [Number(v)].  For an object, ToPrimitive finds no callable [toString]
    when the object has a (data) property of that name of its own, and
    throws; otherwise the inherited one answers "[object Object]". *)
Definition Number (v : val) : result number :=
  match v with
  | VUndefined => Ok NaN
  | VNull => Ok (Finite false 0 0)
  | VBool b => Ok (if b then Finite false 1 0 else Finite false 0 0)
  | VNum n => Ok n
  | VStr s => Ok (StringToNumber s)
  | VObj props =>
      match props !! "toString" with
      | Some _ => Throw (TypeError "Cannot convert object to primitive value")
      | None => Ok (StringToNumber "[object Object]")
      end
  end.

(** [String(v)]. *)
Definition ToString (v : val) : result string :=
  match v with
  | VUndefined => Ok "undefined"
  | VNull => Ok "null"
  | VBool b => Ok (if b then "true" else "false")
  | VNum n => Ok (number_to_string n)
  | VStr s => Ok s
  | VObj props =>
      match props !! "toString" with
      | Some _ => Throw (TypeError "Cannot convert object to primitive value")
      | None => Ok "[object Object]"
      end
  end.

(** ToBoolean. *)
Definition truthy (v : val) : bool :=
  match v with
  | VUndefined | VNull => false
  | VBool b => b
  | VNum n => negb (isNaN n || is_zero n)
  | VStr s => negb (String.eqb s "")
  | VObj _ => true
  end.

(** [v.k] for a key that no prototype defines. *)
Definition get (v : val) (k : string) : result val :=
  match v with
  | VUndefined =>
      Throw (TypeError ("Cannot read properties of undefined (reading '"
                        +:+ k +:+ "')"))
  | VNull =>
      Throw (TypeError ("Cannot read properties of null (reading '"
                        +:+ k +:+ "')"))
  | VObj props => Ok (default VUndefined (props !! k))
  | _ => Ok VUndefined
  end.

(** The members that a plain object inherits from [Object.prototype]:
    [o[k]] finds them when [o] has no property [k] of its own. *)
Definition Object_prototype : list string :=
  ["constructor"; "hasOwnProperty"; "isPrototypeOf"; "propertyIsEnumerable";
   "toLocaleString"; "toString"; "valueOf"; "__proto__";
   "__defineGetter__"; "__defineSetter__";
   "__lookupGetter__"; "__lookupSetter__"].

End JS.


Import JS.

(** [x ← r; k] runs [k] on the value of [r] and passes a thrown error on. *)
Global Instance result_bind : MBind result :=
  fun A B k r => JS.bind r k.

(** ** The escape-regexp package

    [String(str).replace(/([.*+?=^!:${}()|[\]\/\\])/g, '\\$1')]: every
    character of the class gets a backslash in front of it. *)

Definition metacharacters : list ascii :=
  list_ascii_of_string ".*+?=^!:${}()|[]/\".

Definition is_meta (c : ascii) : bool :=
  existsb (Ascii.eqb c) metacharacters.

Fixpoint replace_meta (s : string) : string :=
  match s with
  | EmptyString => EmptyString
  | String c r =>
      if is_meta c then String "\" (String c (replace_meta r))
      else String c (replace_meta r)
  end.

Definition escape (str : val) : result string :=
  s ← ToString str; Ok (replace_meta s).

(** ** Sequelize query values *)

(** The operator symbols the adapter uses. *)
Inductive Op : Type := Op_and | Op_like | Op_gte | Op_lte.

Global Instance Op_eq_dec : EqDecision Op.
Proof. solve_decision. Defined.

Global Instance Op_countable : Countable Op.
Proof.
  refine (inj_countable'
    (fun o => match o with
              | Op_and => 0 | Op_like => 1 | Op_gte => 2 | Op_lte => 3
              end)
    (fun n => match n with
              | 0 => Op_and | 1 => Op_like | 2 => Op_gte | _ => Op_lte
              end) _).
  by intros [].
Defined.

(** [col(name)], or a string passed as it is. *)
Inductive fn_arg : Type :=
| col (name : string)
| str (s : string).

(** [fn(name, ...args)]. *)
Record Fn : Type := fn { fn_name : string; fn_args : list fn_arg }.

(** [where(attribute, logic)], [logic] an object keyed by operators. *)
Record Where : Type := where_ { attribute : Fn; logic : list (Op * Fn) }.

(** A key of the condition object: a property name or an operator. *)
Inductive key : Type :=
| KStr (s : string)
| KSym (o : Op).

Global Instance key_eq_dec : EqDecision key.
Proof. solve_decision. Defined.

Global Instance key_countable : Countable key.
Proof.
  refine (inj_countable'
    (fun k => match k with KStr s => inl s | KSym o => inr o end)
    (fun x => match x with inl s => KStr s | inr o => KSym o end) _).
  by intros [].
Defined.

(** What the condition object holds under a key. *)
Inductive predicate : Type :=
| Equals (v : val)                    (* [name]: v *)
| Range (bounds : list (Op * val))    (* [name]: { [Op.gte]: .., [Op.lte]: .. } *)
| Conjunction (conds : list Where).   (* [Op.and]: [ .. ] *)

Abbreviation condition := (gmap key predicate).

(** [{ [k]: p, ...memo }]: the key is set first and the spread then copies
    every property of [memo] over it, so [memo] wins where it has [k]. *)
Definition with_spread (k : key) (p : predicate) (memo : condition)
  : condition := memo ∪ {[ k := p ]}.

(** ** Properties and filters *)

(** Modelled from the spec: the [Property] class ([src/property.js]) is not
    among the sources.  A property has a [name], unique within a resource, a
    [type] (the string that [type()] returns) and an [isEditable] flag. *)
Record Property : Type := {
  name : string;
  type : string;
  isEditable : bool
}.

(** One element of a filter, as the reducer destructures it. *)
Record FilterElement : Type := {
  property : Property;
  value : val
}.

Abbreviation Filter := (list FilterElement).

(** The element that a filter holds for an editable property. *)
Definition clause (n t : string) (v : val) : FilterElement :=
  {| property := {| name := n; type := t; isEditable := true |};
     value := v |}.

(** [array.reduce(callback, init)] with a callback that may throw. *)
Fixpoint reduce {A B} (callback : B -> A -> result B) (l : list A) (memo : B)
  : result B :=
  match l with
  | [] => Ok memo
  | x :: r => memo' ← callback memo x; reduce callback r memo'
  end.

(** ** convert-filter.js *)

(** The object of the date branch:
    [{ ...value.from && { [Op.gte]: value.from },
       ...value.to && { [Op.lte]: value.to } }]. *)
Definition bounds (from to : val) : list (Op * val) :=
  ((if truthy from then [(Op_gte, from)] else [])
   ++ (if truthy to then [(Op_lte, to)] else []))%list.

Definition reducer (memo : condition) (filterProperty : FilterElement)
  : result condition :=
  let property := property filterProperty in
  let value := value filterProperty in
  let equality := Ok (with_spread (KStr (name property)) (Equals value) memo) in
  if (type property =? "string")%string then
    e ← escape value;
    Ok (with_spread (KSym Op_and)
          (Conjunction
             [where_ (fn "LOWER" [col (name property)])
                     [(Op_like, fn "LOWER" [str ("%" +:+ e +:+ "%")])]])
          memo)
  else if (type property =? "number")%string then
    n ← Number value;
    if negb (isNaN n) then
      Ok (with_spread (KStr (name property)) (Equals (VNum n)) memo)
    else Ok memo
  else if (type property =? "date")%string
          || (type property =? "datetime")%string then
    from ← get value "from";
    to ← get value "to";
    if truthy from || truthy to then
      Ok (with_spread (KStr (name property)) (Range (bounds from to)) memo)
    else equality
  else equality.

Definition convertFilter (filter : option Filter) : result condition :=
  match filter with
  | None => Ok ∅
  | Some filter => reduce reducer filter ∅
  end.

(** A clause translated on its own raises nothing. *)
Definition quiet (c : FilterElement) : Prop :=
  succeeds (reducer ∅ c) = true.

(** ** The Sequelize model, as the adapter reads it *)

Abbreviation object := (gmap string val).

Module Sequelize.

Inductive DataType : Type :=
| STRING | TEXT | INTEGER | FLOAT | BOOLEAN | DATE | DATEONLY | VIRTUAL.

(** [t instanceof DataTypes.VIRTUAL]. *)
Definition is_VIRTUAL (t : DataType) : bool :=
  match t with VIRTUAL => true | _ => false end.

(** An attribute definition; the adapter reads its [type]. *)
Record Attribute : Type := { type : DataType }.

(** The options object handed to [findAll]. *)
Record FindOptions : Type := {
  where' : condition;
  limit : nat;
  offset : nat;
  order : list (option string * string)
}.

(** The model class: its [name], [tableName], [primaryKeyField], and
    [fieldRawAttributesMap], a plain object: the map holds its own
    properties, one definition per field name. *)
Record Model : Type := {
  name : string;
  tableName : string;
  primaryKeyField : string;
  fieldRawAttributesMap : gmap string Attribute
}.

(** The calls that reach the storage. *)
Inductive Call : Type :=
| Create (values : object)
| Update (values : object) (where_pk : string * val)
| FindByPk (id : val)
| FindAll (options : FindOptions).

End Sequelize.

(** The storage behind the model: each call answers with a result or
    rejects with an error, and moves the database on.  A stored row is
    given by the plain object that [toJSON()] returns; [findByPk] answers
    [None] for [null].

    [createValidationError] ([src/utils/create-validation-error.js]) is not
    among the sources; it is a parameter, together with the storage. *)
Class Storage (DB : Type) : Type := {
  SequelizeModel_create : object → DB → result object * DB;
  SequelizeModel_update : object → string * val → DB → result unit * DB;
  SequelizeModel_findByPk : val → DB → result (option object) * DB;
  SequelizeModel_findAll : Sequelize.FindOptions → DB → result (list object) * DB;
  createValidationError : error → error
}.

(** ** resource.js *)

Definition SEQUELIZE_VALIDATION_ERROR : string := "SequelizeValidationError".

(** The adapter: the model it wraps and the properties that [properties()]
    builds from the model's attributes. *)
Record Resource : Type := {
  SequelizeModel : Sequelize.Model;
  properties : list Property
}.

Record BaseRecord : Type := {
  params : object;
  resource : Resource
}.

(** Objects live in a store and are passed by reference; a reference is
    the index of its object. *)
Abbreviation ref := nat.
Abbreviation heap := (list object).

Definition deref (h : heap) (r : ref) : object := default ∅ (h !! r).

Definition alloc (o : object) (h : heap) : ref * heap :=
  (length h, (h ++ [o])%list).

(** [delete r[k]]. *)
Definition delete_property (r : ref) (k : string) (h : heap) : heap :=
  alter (delete k) r h.

(** The state of a run: the object store, the database, and the calls
    issued to the storage so far. *)
Record World (DB : Type) : Type := {
  store : heap;
  db : DB;
  calls : list Sequelize.Call
}.
Arguments store {DB} w.
Arguments db {DB} w.
Arguments calls {DB} w.

Definition parseParams (this : Resource) (params : ref) (h : heap)
  : ref * heap :=
  let '(parsedParams, h) := alloc (deref h params) h in
  let h :=
    foldl
      (fun h property =>
         let value := deref h parsedParams !! name property in
         let h :=
           if bool_decide (type property ∈ ["number"; "float"; "reference"])
           then
             match value with
             | Some (VStr EmptyString) =>
                 delete_property parsedParams (name property) h
             | _ => h
             end
           else h in
         if negb (isEditable property)
         then delete_property parsedParams (name property) h
         else h)
      h (properties this) in
  (parsedParams, h).

Record Sort : Type := {
  direction : option string;
  sortBy : option string
}.

Record Options : Type := {
  limit : option nat;
  offset : option nat;
  sort : option Sort
}.

(** The property key that [m[k]] looks up: [undefined] reads the key
    "undefined". *)
Definition property_key (k : option string) : string :=
  default "undefined" k.

Definition upper (c : ascii) : ascii :=
  let n := N_of_ascii c in
  if (97 <=? n)%N && (n <=? 122)%N then ascii_of_N (n - 32) else c.

(** [s.toUpperCase()], on the letters a to z. *)
Fixpoint toUpperCase (s : string) : string :=
  match s with
  | EmptyString => EmptyString
  | String c r => String (upper c) (toUpperCase r)
  end.

Definition quote : string := String "034"%char EmptyString.

Definition virtual_sort_message (sortBy model : string) : string :=
  "Cannot sort on VIRTUAL Datatype " +:+ quote +:+ sortBy +:+ quote
  +:+ " on resource " +:+ quote +:+ model +:+ quote
  +:+ "! You can provide a different sort by field to avoid this issue, see: https://adminbro.com/ResourceOptions.html#sort".

Section Adapter.

Context {DB : Type} `{!Storage DB}.

Definition issue {A} (call : Sequelize.Call) (run : DB → result A * DB)
    (w : World DB) : result A * World DB :=
  let '(r, d) := run (db w) in
  (r, {| store := store w; db := d; calls := (calls w ++ [call])%list |}).

Definition find (this : Resource) (filter : option Filter)
    (options : Options) (w : World DB)
  : result (list BaseRecord) * World DB :=
  let limit := default 20 (limit options) in
  let offset := default 0 (offset options) in
  let sort := default {| direction := None; sortBy := None |} (sort options) in
  let direction := direction sort in
  let sortBy := sortBy sort in
  (* what follows the check of the sort field *)
  let query (_ : unit) : result (list BaseRecord) * World DB :=
    match convertFilter filter with
    | Throw e => (Throw e, w)
    | Ok condition =>
        let direction :=
          match direction with
          | Some d => if (d =? "")%string then "asc" else d
          | None => "asc"
          end in
        let options :=
          {| Sequelize.where' := condition;
             Sequelize.limit := limit;
             Sequelize.offset := offset;
             Sequelize.order := [(sortBy, toUpperCase direction)] |} in
        let '(r, w) :=
          issue (Sequelize.FindAll options)
                (SequelizeModel_findAll options) w in
        match r with
        | Throw e => (Throw e, w)
        | Ok sequelizeObjects =>
            (Ok (map (fun sequelizeObject =>
                        {| params := sequelizeObject; resource := this |})
                     sequelizeObjects), w)
        end
    end in
  match Sequelize.fieldRawAttributesMap (SequelizeModel this)
          !! property_key sortBy with
  | Some attribute =>
      if Sequelize.is_VIRTUAL (Sequelize.type attribute) then
        (Throw (Error (virtual_sort_message (property_key sortBy)
                         (Sequelize.name (SequelizeModel this)))), w)
      else query ()
  | None =>
      (* no field of that name: the lookup goes on to [Object.prototype];
         a member found there has no [type], and [undefined] is an
         instance of nothing *)
      if bool_decide (property_key sortBy ∈ Object_prototype) then query ()
      else
        (Throw (TypeError "Cannot read properties of undefined (reading 'type')"),
         w)
  end.

(** The [catch] block of [create] and [update]. *)
Definition rethrow {A} (error : error) : result A :=
  if (JS.name error =? SEQUELIZE_VALIDATION_ERROR)%string
  then Throw (createValidationError error)
  else Throw error.

Definition findById (id : val) (w : World DB)
  : result (option object) * World DB :=
  issue (Sequelize.FindByPk id) (SequelizeModel_findByPk id) w.

Definition create (this : Resource) (params : ref) (w : World DB)
  : result object * World DB :=
  let '(parsedParams, h) := parseParams this params (store w) in
  let w := {| store := h; db := db w; calls := calls w |} in
  let values := deref h parsedParams in
  let '(r, w) :=
    issue (Sequelize.Create values) (SequelizeModel_create values) w in
  match r with
  | Ok record => (Ok record, w)
  | Throw error => (rethrow error, w)
  end.

Definition update (this : Resource) (id : val) (params : ref) (w : World DB)
  : result object * World DB :=
  let '(parsedParams, h) := parseParams this params (store w) in
  let w := {| store := h; db := db w; calls := calls w |} in
  let values := deref h parsedParams in
  let where_pk := (Sequelize.primaryKeyField (SequelizeModel this), id) in
  let '(r, w) :=
    issue (Sequelize.Update values where_pk)
          (SequelizeModel_update values where_pk) w in
  match r with
  | Throw error => (rethrow error, w)
  | Ok _ =>
      let '(r, w) := findById id w in
      match r with
      | Throw error => (rethrow error, w)
      | Ok None =>
          (rethrow (TypeError "Cannot read properties of null (reading 'toJSON')"),
           w)
      | Ok (Some record) => (Ok record, w)
      end
  end.

End Adapter.

(** The body of the loop of [parseParams], on the object that
    [parsedParams] refers to. *)
Definition sift (o : object) (property : Property) : object :=
  let o :=
    if bool_decide (type property ∈ ["number"; "float"; "reference"])
    then
      match o !! name property with
      | Some (VStr EmptyString) => delete (name property) o
      | _ => o
      end
    else o in
  if negb (isEditable property) then delete (name property) o else o.

(** [sub] occurs in [s]. *)
Definition contains (sub s : string) : Prop :=
  ∃ a b, s = a +:+ sub +:+ b.

(** ** A sample resource and a sample storage *)

Module Sample.

(** A model with a VIRTUAL attribute [name], as the one of the tests. *)
Definition User : Sequelize.Model :=
  {| Sequelize.name := "User";
     Sequelize.tableName := "Users";
     Sequelize.primaryKeyField := "id";
     Sequelize.fieldRawAttributesMap :=
       {[ "id" := {| Sequelize.type := Sequelize.INTEGER |};
          "email" := {| Sequelize.type := Sequelize.STRING |};
          "name" := {| Sequelize.type := Sequelize.VIRTUAL |} ]} |}.

Definition users : Resource :=
  {| SequelizeModel := User;
     properties :=
       [ {| name := "id"; type := "number"; isEditable := false |};
         {| name := "email"; type := "string"; isEditable := true |};
         {| name := "userId"; type := "reference"; isEditable := true |} ] |}.

Definition invalid : error :=
  mkError SEQUELIZE_VALIDATION_ERROR "Validation error"
          [("email", "Validation isEmail on email failed")].

Definition broken : error :=
  mkError "SequelizeConnectionError" "connection lost" [].

(** A database of rows that refuses a row without [email], loses the
    connection on every update, and knows no primary key. *)
Global Instance rows : Storage (list object) := {|
  SequelizeModel_create values d :=
    match values !! "email" with
    | Some _ => (Ok values, (d ++ [values])%list)
    | None => (Throw invalid, d)
    end;
  SequelizeModel_update _ _ d := (Throw broken, d);
  SequelizeModel_findByPk _ d := (Ok None, d);
  SequelizeModel_findAll _ d := (Ok d, d);
  createValidationError e :=
    mkError "ValidationError" (JS.message e) (JS.errors e)
|}.

Definition world (h : heap) : World (list object) :=
  {| store := h; db := []; calls := [] |}.

End Sample.

(** A property lets the value [v] of its name through when it is editable
    and [v] is not an empty string under a number, float or reference
    type. *)
Definition lets_through (p : Property) (v : val) : Prop :=
  isEditable p = true
  ∧ ¬ (type p ∈ ["number"; "float"; "reference"] ∧ v = VStr "").

(** ** resource.js: the other operations *)

(** The key under which the reducer writes for a clause: [Op.and] for a
    string clause, the property's name for any other. *)
Definition target (c : FilterElement) : key :=
  if (type (property c) =? "string")%string then KSym Op_and
  else KStr (name (property c)).

Section Reading.

Context {DB : Type} `{!Storage DB}.

(** [findOne]: the row is read by [findById], and [toJSON] is called on
    what comes back, [null] included. *)
Definition findOne (this : Resource) (id : val) (w : World DB)
  : result BaseRecord * World DB :=
  let '(r, w) := findById id w in
  match r with
  | Throw e => (Throw e, w)
  | Ok None =>
      (Throw (TypeError "Cannot read properties of null (reading 'toJSON')"),
       w)
  | Ok (Some sequelizeObject) =>
      (Ok {| params := sequelizeObject; resource := this |}, w)
  end.

End Reading.

(** The storage's [count({ where })]. *)
Class Counting (DB : Type) : Type := {
  SequelizeModel_count : condition → DB → result nat * DB
}.

(** [count]: the filter is translated first, and the storage counts under
    the condition. *)
Definition count {DB : Type} `{!Counting DB} (filter : option Filter) (d : DB)
  : result nat * DB :=
  match convertFilter filter with
  | Throw e => (Throw e, d)
  | Ok condition => SequelizeModel_count condition d
  end.

(** ** A storage that keeps rows *)

Module Table.

(** Rows by the string that their [id] holds. *)
Abbreviation rows := (gmap string object).

Definition missing_id : error :=
  mkError SEQUELIZE_VALIDATION_ERROR "Validation error"
          [("id", "id cannot be null")].

Global Instance storage : Storage rows := {|
  SequelizeModel_create values d :=
    match values !! "id" with
    | Some (VStr i) => (Ok values, <[ i := values ]> d)
    | _ => (Throw missing_id, d)
    end;
  SequelizeModel_update values where_pk d :=
    match where_pk.2 with
    | VStr i => (Ok (), alter (fun row => values ∪ row) i d)
    | _ => (Ok (), d)
    end;
  SequelizeModel_findByPk id d :=
    match id with
    | VStr i => (Ok (d !! i), d)
    | _ => (Ok None, d)
    end;
  SequelizeModel_findAll _ d := (Ok (snd <$> map_to_list d), d);
  createValidationError e :=
    mkError "ValidationError" (JS.message e) (JS.errors e)
|}.

Global Instance counting : Counting rows := {|
  SequelizeModel_count _ d := (Ok (size d), d)
|}.

Definition world (h : heap) (d : rows) : World rows :=
  {| store := h; db := d; calls := [] |}.

End Table.

(** ** The built-ins on sample inputs *)

Example StringToNumber_samples :
  StringToNumber "42" = Finite false 42 0
  ∧ StringToNumber " 4.20e1 " = Finite false 42 0
  ∧ StringToNumber "0x2A" = Finite false 42 0
  ∧ StringToNumber "" = Finite false 0 0
  ∧ StringToNumber "-0" = Finite true 0 0
  ∧ StringToNumber ".5" = Finite false 5 (-1)
  ∧ StringToNumber "1200" = Finite false 12 2
  ∧ StringToNumber "-Infinity" = Infinity true
  ∧ StringToNumber "abc" = NaN
  ∧ StringToNumber "1e" = NaN
  ∧ StringToNumber "4 2" = NaN
  ∧ StringToNumber "[object Object]" = NaN.
Proof. repeat split. Qed.

(** Literals that are not doubles round to the nearest double, ties to
    even; past the largest double they are infinite, and under half the
    smallest they are zero. *)
Example StringToNumber_rounding :
  StringToNumber "9007199254740993" = Finite false 9007199254740992 0
  ∧ StringToNumber "9007199254740995" = Finite false 9007199254740996 0
  ∧ StringToNumber "0x20000000000001" = Finite false 9007199254740992 0
  ∧ StringToNumber "0.1000000000000000055" = Finite false 1 (-1)
  ∧ StringToNumber "123456789012345678901234567890"
    = Finite false 12345678901234568 13
  ∧ StringToNumber "1.7976931348623157e308"
    = Finite false 17976931348623157 292
  ∧ StringToNumber "1.7976931348623159e308" = Infinity false
  ∧ StringToNumber "1e400" = Infinity false
  ∧ StringToNumber "-1e400" = Infinity true
  ∧ StringToNumber "5e-324" = Finite false 5 (-324)
  ∧ StringToNumber "2.5e-324" = Finite false 5 (-324)
  ∧ StringToNumber "2.4e-324" = Finite false 0 0
  ∧ StringToNumber "-1e-400" = Finite true 0 0.
Proof. vm_compute. repeat split. Qed.

Example number_to_string_samples :
  number_to_string (Finite false 42 0) = "42"
  ∧ number_to_string (Finite true 12 2) = "-1200"
  ∧ number_to_string (Finite false 12345 (-2)) = "123.45"
  ∧ number_to_string (Finite false 5 (-6)) = "0.000005"
  ∧ number_to_string (Finite false 5 (-7)) = "5e-7"
  ∧ number_to_string (Finite false 1 21) = "1e+21"
  ∧ number_to_string (Finite true 0 0) = "0".
Proof. repeat split. Qed.

Example escape_samples :
  escape (VStr "a.b*c") = Ok "a\.b\*c"
  ∧ escape (VStr "50%_off") = Ok "50%_off"
  ∧ escape (VNum (Finite false 15 (-1))) = Ok "1\.5"
  ∧ escape VUndefined = Ok "undefined".
Proof. repeat split. Qed.

(** ** How the reducer accumulates *)

Section Accumulation.

Implicit Types (memo m : condition) (c : FilterElement) (l : Filter).

Lemma with_spread_empty k p : with_spread k p ∅ = {[ k := p ]}.
Proof. unfold with_spread. by rewrite (left_id_L ∅ (∪)). Qed.

(** A step adds to [memo] what the clause yields from the empty object,
    and [memo] keeps its own entries. *)
Lemma reducer_union memo c :
  reducer memo c = (m ← reducer ∅ c; Ok (memo ∪ m)).
Proof.
  unfold reducer, escape, mbind, result_bind, JS.bind.
  repeat (case_match; simplify_eq/=; try done);
    rewrite ?with_spread_empty; unfold with_spread;
    by rewrite ?(right_id_L ∅ (∪)).
Qed.

Lemma reduce_union l memo :
  reduce reducer l memo = (m ← reduce reducer l ∅; Ok (memo ∪ m)).
Proof.
  revert memo. induction l as [|c l IH]; intros memo; simpl.
  - unfold mbind, result_bind; simpl. by rewrite (right_id_L ∅ (∪)).
  - rewrite (reducer_union memo c).
    unfold mbind, result_bind, JS.bind in *.
    destruct (reducer ∅ c) as [m1|e]; [|done].
    rewrite (IH (memo ∪ m1)), (IH m1).
    destruct (reduce reducer l ∅) as [m2|e]; [|done].
    by rewrite (assoc_L (∪)).
Qed.

Lemma convertFilter_cons c l :
  convertFilter (Some (c :: l))
  = (m1 ← reducer ∅ c; m2 ← convertFilter (Some l); Ok (m1 ∪ m2)).
Proof.
  simpl. unfold mbind, result_bind, JS.bind.
  destruct (reducer ∅ c) as [m1|e]; [|done].
  by rewrite reduce_union.
Qed.

Lemma convertFilter_app l1 l2 :
  convertFilter (Some (l1 ++ l2)%list)
  = (m1 ← convertFilter (Some l1); m2 ← convertFilter (Some l2);
     Ok (m1 ∪ m2)).
Proof.
  induction l1 as [|c l1 IH].
  - simpl. unfold mbind, result_bind, JS.bind.
    destruct (reduce reducer l2 ∅); [|done]. by rewrite (left_id_L ∅ (∪)).
  - change ((c :: l1) ++ l2)%list with (c :: (l1 ++ l2))%list.
    rewrite !convertFilter_cons, IH.
    unfold mbind, result_bind, JS.bind.
    destruct (reducer ∅ c) as [m1|e]; [|done].
    destruct (convertFilter (Some l1)) as [m2|e]; [|done].
    destruct (convertFilter (Some l2)) as [m3|e]; [|done].
    by rewrite (assoc_L (∪)).
Qed.

(** Quiet clauses make a filter that translates. *)
Lemma convertFilter_quiet l :
  Forall quiet l → ∃ m, convertFilter (Some l) = Ok m.
Proof.
  induction 1 as [|c l Hc _ [m Hm]]; [by eexists|].
  rewrite convertFilter_cons, Hm. unfold quiet in Hc.
  destruct (reducer ∅ c) as [m1|e]; [|done]. by eexists.
Qed.

(** Clauses that raise nothing: a string value under any type, a plain
    object without a [toString] of its own, any value under a type that the
    switch does not name. *)
Lemma quiet_string c s : value c = VStr s → quiet c.
Proof.
  intros Hv. unfold quiet, reducer, escape. rewrite Hv.
  unfold mbind, result_bind, JS.bind, ToString, Number, get.
  destruct (_ =? _)%string; [done|].
  destruct (_ =? _)%string; [by destruct (negb _)|].
  by destruct (_ || _).
Qed.

Lemma quiet_object c o :
  value c = VObj o → o !! "toString" = None → quiet c.
Proof.
  intros Hv Ho. unfold quiet, reducer, escape. rewrite Hv.
  unfold mbind, result_bind, JS.bind, ToString, Number, get. rewrite Ho.
  destruct (_ =? _)%string; [done|].
  destruct (_ =? _)%string; [by destruct (negb _)|].
  destruct (_ || _); [|done]. by destruct (_ || _).
Qed.

Lemma quiet_default c :
  type (property c) ∉ ["string"; "number"; "date"; "datetime"] → quiet c.
Proof.
  intros Ht. unfold quiet, reducer.
  destruct (String.eqb_spec (type (property c)) "string") as [E|_];
    [rewrite E in Ht; exfalso; apply Ht; repeat constructor|].
  destruct (String.eqb_spec (type (property c)) "number") as [E|_];
    [rewrite E in Ht; exfalso; apply Ht; repeat constructor|].
  destruct (String.eqb_spec (type (property c)) "date") as [E|_];
    [rewrite E in Ht; exfalso; apply Ht; repeat constructor|].
  destruct (String.eqb_spec (type (property c)) "datetime") as [E|_];
    [rewrite E in Ht; exfalso; apply Ht; repeat constructor|].
  done.
Qed.

(** A filter of string scalars and plain objects translates, whatever the
    types of its properties. *)
Lemma convertFilter_never_raises l :
  Forall (fun c => (∃ s, value c = VStr s)
                   ∨ (∃ o, value c = VObj o ∧ o !! "toString" = None)) l →
  ∃ m, convertFilter (Some l) = Ok m.
Proof.
  intros H. apply convertFilter_quiet. eapply Forall_impl; [exact H|].
  intros c [[s Hs] | (o & Ho & Hts)];
    eauto using quiet_string, quiet_object.
Qed.

(** A clause writes under its property's name or under [Op.and] only. *)
Lemma reducer_name_other c m n :
  reducer ∅ c = Ok m → name (property c) ≠ n → m !! KStr n = None.
Proof.
  unfold reducer, escape, mbind, result_bind, JS.bind. intros H Hn.
  repeat (case_match; simplify_eq/=; try done);
    rewrite ?with_spread_empty;
    by rewrite ?lookup_empty, ?lookup_singleton_ne by congruence.
Qed.

Lemma reducer_and_other c m :
  reducer ∅ c = Ok m → type (property c) ≠ "string" →
  m !! KSym Op_and = None.
Proof.
  unfold reducer, escape, mbind, result_bind, JS.bind. intros H Ht.
  repeat (case_match; simplify_eq/=; try done);
    rewrite ?with_spread_empty;
    try (by rewrite ?lookup_empty, ?lookup_singleton_ne by congruence).
  all: by match goal with H : (_ =? _)%string = true |- _ =>
            apply String.eqb_eq in H end.
Qed.

Lemma convertFilter_name_other l m n :
  convertFilter (Some l) = Ok m →
  Forall (fun o => name (property o) ≠ n) l →
  m !! KStr n = None.
Proof.
  intros Hm Hl. revert m Hm.
  induction Hl as [|c l Hc _ IH]; intros m Hm.
  - by simplify_eq/=.
  - rewrite convertFilter_cons in Hm.
    unfold mbind, result_bind, JS.bind in Hm.
    destruct (reducer ∅ c) as [m1|] eqn:H1; [|done].
    destruct (convertFilter (Some l)) as [m2|]; simplify_eq/=.
    apply lookup_union_None. eauto using reducer_name_other.
Qed.

Lemma convertFilter_and_other l m :
  convertFilter (Some l) = Ok m →
  Forall (fun o => type (property o) ≠ "string") l →
  m !! KSym Op_and = None.
Proof.
  intros Hm Hl. revert m Hm.
  induction Hl as [|c l Hc _ IH]; intros m Hm.
  - by simplify_eq/=.
  - rewrite convertFilter_cons in Hm.
    unfold mbind, result_bind, JS.bind in Hm.
    destruct (reducer ∅ c) as [m1|] eqn:H1; [|done].
    destruct (convertFilter (Some l)) as [m2|]; simplify_eq/=.
    apply lookup_union_None. eauto using reducer_and_other.
Qed.

End Accumulation.

(** ** A clause inside a filter *)

Section Clause.

Variables (pre post : Filter) (c : FilterElement).

(** The clauses around [c] translate on their own, and none of them
    targets the property of [c]. *)
Hypothesis others_quiet : Forall quiet (pre ++ post)%list.

Lemma convertFilter_clause mc :
  reducer ∅ c = Ok mc →
  ∃ mpre mpost,
    convertFilter (Some pre) = Ok mpre
    ∧ convertFilter (Some post) = Ok mpost
    ∧ convertFilter (Some (pre ++ c :: post)%list) = Ok (mpre ∪ (mc ∪ mpost)).
Proof.
  intros Hc. apply Forall_app in others_quiet as [Hpre Hpost].
  destruct (convertFilter_quiet _ Hpre) as [mpre Hmpre].
  destruct (convertFilter_quiet _ Hpost) as [mpost Hmpost].
  exists mpre, mpost. split_and!; [done..|].
  rewrite convertFilter_app, Hmpre, convertFilter_cons, Hc, Hmpost. done.
Qed.

(** Under a name that no other clause targets, the condition holds what
    [c] yields on its own. *)
Lemma convertFilter_clause_name mc :
  Forall (fun o => name (property o) ≠ name (property c)) (pre ++ post)%list →
  reducer ∅ c = Ok mc →
  ∃ cond,
    convertFilter (Some (pre ++ c :: post)%list) = Ok cond
    ∧ cond !! KStr (name (property c)) = mc !! KStr (name (property c)).
Proof.
  intros [Hpre Hpost]%Forall_app Hc.
  destruct (convertFilter_clause mc Hc) as (mpre & mpost & H1 & H2 & H3).
  exists (mpre ∪ (mc ∪ mpost)). split; [done|].
  pose proof (convertFilter_name_other _ _ _ H1 Hpre) as Hn1.
  pose proof (convertFilter_name_other _ _ _ H2 Hpost) as Hn2.
  rewrite lookup_union_r by done.
  destruct (mc !! KStr (name (property c))) as [p|] eqn:Hp.
  - by erewrite lookup_union_Some_l.
  - by apply lookup_union_None.
Qed.

(** Under [Op.and], when no earlier clause is of type string, the
    condition holds what a string clause [c] yields on its own. *)
Lemma convertFilter_clause_and mc p :
  Forall (fun o => type (property o) ≠ "string") pre →
  reducer ∅ c = Ok mc →
  mc !! KSym Op_and = Some p →
  ∃ cond,
    convertFilter (Some (pre ++ c :: post)%list) = Ok cond
    ∧ cond !! KSym Op_and = Some p.
Proof.
  intros Hpre Hc Hp.
  destruct (convertFilter_clause mc Hc) as (mpre & mpost & H1 & H2 & H3).
  exists (mpre ∪ (mc ∪ mpost)). split; [done|].
  rewrite lookup_union_r by eauto using convertFilter_and_other.
  by erewrite lookup_union_Some_l.
Qed.

End Clause.

(** ** What one clause yields *)

Section Yield.

Variable c : FilterElement.

Lemma reducer_string s :
  type (property c) = "string" →
  ToString (value c) = Ok s →
  reducer ∅ c
  = Ok {[ KSym Op_and :=
            Conjunction
              [where_ (fn "LOWER" [col (name (property c))])
                 [(Op_like,
                   fn "LOWER" [str ("%" +:+ replace_meta s +:+ "%")])]] ]}.
Proof.
  intros Ht Hs. unfold reducer, escape. rewrite Ht, Hs. simpl.
  by rewrite with_spread_empty.
Qed.

Lemma reducer_number n :
  type (property c) = "number" →
  Number (value c) = Ok n →
  reducer ∅ c
  = Ok (if isNaN n then ∅
        else {[ KStr (name (property c)) := Equals (VNum n) ]}).
Proof.
  intros Ht Hn. unfold reducer. rewrite Ht, Hn. simpl.
  destruct (isNaN n); simpl; by rewrite ?with_spread_empty.
Qed.

Lemma reducer_date from to :
  type (property c) = "date" ∨ type (property c) = "datetime" →
  get (value c) "from" = Ok from →
  get (value c) "to" = Ok to →
  reducer ∅ c
  = Ok {[ KStr (name (property c)) :=
            if truthy from || truthy to then Range (bounds from to)
            else Equals (value c) ]}.
Proof.
  intros Ht Hfrom Hto. unfold reducer.
  destruct Ht as [-> | ->]; simpl; rewrite Hfrom, Hto; simpl;
    destruct (truthy from || truthy to); by rewrite with_spread_empty.
Qed.

End Yield.

(** Once a string clause has been translated, a later string clause leaves
    no trace in the condition. *)
Lemma convertFilter_and_some l m :
  convertFilter (Some l) = Ok m →
  Exists (fun o => type (property o) = "string") l →
  is_Some (m !! KSym Op_and).
Proof.
  intros Hm Hl. revert m Hm.
  induction Hl as [c l Hc | c l _ IH]; intros m Hm;
    rewrite convertFilter_cons in Hm;
    unfold mbind, result_bind, JS.bind in Hm;
    destruct (reducer ∅ c) as [m1|] eqn:H1; try done;
    destruct (convertFilter (Some l)) as [m2|]; simplify_eq/=.
  - unfold reducer, escape in H1. rewrite Hc in H1. simpl in H1.
    destruct (ToString (value c)); simplify_eq/=.
    rewrite with_spread_empty. apply lookup_union_is_Some. left.
    rewrite lookup_singleton_eq. by eexists.
  - apply lookup_union_is_Some. right. by apply IH.
Qed.

Lemma later_string_clause_lost (pre post : Filter) (c : FilterElement) :
  Exists (fun o => type (property o) = "string") pre →
  type (property c) = "string" →
  quiet c →
  convertFilter (Some (pre ++ c :: post)%list)
  = convertFilter (Some (pre ++ post)%list).
Proof.
  intros Hpre Ht Hq. rewrite !convertFilter_app, convertFilter_cons.
  unfold mbind, result_bind, JS.bind.
  destruct (convertFilter (Some pre)) as [mpre|] eqn:H1; [|done].
  unfold quiet in Hq.
  destruct (reducer ∅ c) as [mc|] eqn:Hc; [|done].
  destruct (convertFilter (Some post)) as [mpost|]; [|done].
  f_equal. destruct (convertFilter_and_some _ _ H1 Hpre) as [p Hp].
  unfold reducer, escape in Hc. rewrite Ht in Hc. simpl in Hc.
  destruct (ToString (value c)); simplify_eq/=.
  rewrite with_spread_empty. apply map_eq. intros k.
  destruct (decide (k = KSym Op_and)) as [->|Hk].
  - by rewrite !(lookup_union_Some_l _ _ _ _ Hp).
  - rewrite !lookup_union. by rewrite lookup_singleton_ne, (left_id_L None _).
Qed.

(** ** The filter translator: the claims *)

(** C1 (the code departs from the claim): a filter of two string clauses on
    different properties, [firstName] and [lastName], translates to the
    condition of its first clause alone.  Both clauses key their predicate
    by [Op.and], and the spread of [memo] puts the earlier one back over
    the later one: no predicate mentions [lastName]. *)
Theorem second_string_clause_has_no_predicate :
  let first := clause "firstName" "string" (VStr "jo") in
  let second := clause "lastName" "string" (VStr "do") in
  name (property first) ≠ name (property second)
  ∧ convertFilter (Some [first; second]) = convertFilter (Some [first])
  ∧ convertFilter (Some [first; second])
    = Ok {[ KSym Op_and :=
              Conjunction
                [where_ (fn "LOWER" [col "firstName"])
                   [(Op_like, fn "LOWER" [str "%jo%"])]] ]}.
Proof.
  intros first second. split_and!.
  - discriminate.
  - apply (later_string_clause_lost [first] [] second); [by left|done|done].
  - vm_compute. reflexivity.
Qed.

(** C2 (counterexample): a date clause on [createdAt] whose value object is
    empty has neither bound, and the condition still has an entry under
    [createdAt]: the value object itself, as an equality. *)
Lemma date_without_bounds_has_entry :
  let c := clause "createdAt" "date" (VObj ∅) in
  get (value c) "from" = Ok VUndefined
  ∧ get (value c) "to" = Ok VUndefined
  ∧ ∃ cond, convertFilter (Some [c]) = Ok cond
            ∧ cond !! KStr "createdAt" = Some (Equals (VObj ∅))
            ∧ cond !! KStr "createdAt" ≠ None.
Proof.
  simpl. split_and!; [done..|].
  eexists. split; [reflexivity|].
  unfold mbind, result_bind; simpl. rewrite with_spread_empty.
  by rewrite lookup_singleton_eq.
Qed.

(** C2 (amended): for a date or datetime clause whose value has neither a
    truthy [from] nor a truthy [to], the translation falls through to the
    equality of the default branch: inside a filter whose other clauses
    translate and target other properties, the condition maps the
    property's name to the clause's value itself. *)
Theorem date_without_bounds_is_equality
    (pre post : Filter) (c : FilterElement) (from to : val) :
  type (property c) = "date" ∨ type (property c) = "datetime" →
  Forall quiet (pre ++ post)%list →
  Forall (fun o => name (property o) ≠ name (property c)) (pre ++ post)%list →
  get (value c) "from" = Ok from →
  get (value c) "to" = Ok to →
  truthy from = false →
  truthy to = false →
  ∃ cond,
    convertFilter (Some (pre ++ c :: post)%list) = Ok cond
    ∧ cond !! KStr (name (property c)) = Some (Equals (value c)).
Proof.
  intros Ht Hq Hn Hfrom Hto Hf1 Hf2.
  destruct (convertFilter_clause_name pre post c Hq _ Hn
              (reducer_date c from to Ht Hfrom Hto)) as (cond & Hc & Hk).
  exists cond. split; [done|].
  by rewrite Hk, Hf1, Hf2, lookup_singleton_eq.
Qed.

Lemma date_without_bounds_is_equality_witness :
  ∃ cond,
    convertFilter
      (Some [clause "title" "string" (VStr "a");
             clause "createdAt" "datetime" (VObj {[ "from" := VStr "" ]});
             clause "age" "number" (VStr "7")]) = Ok cond
    ∧ cond !! KStr "createdAt"
      = Some (Equals (VObj {[ "from" := VStr "" ]})).
Proof.
  apply (date_without_bounds_is_equality
           [clause "title" "string" (VStr "a")]
           [clause "age" "number" (VStr "7")]
           (clause "createdAt" "datetime" (VObj {[ "from" := VStr "" ]}))
           (VStr "") VUndefined).
  - by right.
  - repeat constructor.
  - repeat constructor; discriminate.
  - reflexivity.
  - reflexivity.
  - reflexivity.
  - reflexivity.
Defined.

(** C3: a number clause whose value coerces to a number [n] puts the
    equality on [n] under the property's name; when the coercion is [NaN]
    the clause is dropped, the condition has no entry under that name, and
    the translation returns without an exception.  The clause stands
    inside a filter whose other clauses translate and target other
    properties. *)
Theorem number_clause_translation
    (pre post : Filter) (c : FilterElement) (n : number) :
  type (property c) = "number" →
  Forall quiet (pre ++ post)%list →
  Forall (fun o => name (property o) ≠ name (property c)) (pre ++ post)%list →
  Number (value c) = Ok n →
  ∃ cond,
    convertFilter (Some (pre ++ c :: post)%list) = Ok cond
    ∧ cond !! KStr (name (property c))
      = if isNaN n then None else Some (Equals (VNum n)).
Proof.
  intros Ht Hq Hn Hv.
  destruct (convertFilter_clause_name pre post c Hq _ Hn
              (reducer_number c n Ht Hv)) as (cond & Hc & Hk).
  exists cond. split; [done|]. rewrite Hk.
  destruct (isNaN n); [done|]. by rewrite lookup_singleton_eq.
Qed.

Lemma number_clause_translation_witness :
  (∃ cond,
     convertFilter
       (Some [clause "title" "string" (VStr "a");
              clause "age" "number" (VStr "42");
              clause "createdAt" "date" (VObj ∅)]) = Ok cond
     ∧ cond !! KStr "age" = Some (Equals (VNum (Finite false 42 0))))
  ∧ (∃ cond,
       convertFilter
         (Some [clause "title" "string" (VStr "a");
                clause "age" "number" (VStr "abc");
                clause "createdAt" "date" (VObj ∅)]) = Ok cond
       ∧ cond !! KStr "age" = None)
  ∧ (∃ cond,
       convertFilter
         (Some [clause "id" "number" (VStr "9007199254740993")]) = Ok cond
       ∧ cond !! KStr "id"
         = Some (Equals (VNum (Finite false 9007199254740992 0))))
  ∧ (∃ cond,
       convertFilter (Some [clause "id" "number" (VStr "1e400")]) = Ok cond
       ∧ cond !! KStr "id" = Some (Equals (VNum (Infinity false)))).
Proof.
  split_and!.
  - apply (number_clause_translation
             [clause "title" "string" (VStr "a")]
             [clause "createdAt" "date" (VObj ∅)]
             (clause "age" "number" (VStr "42")) (Finite false 42 0)).
    + reflexivity.
    + repeat constructor.
    + repeat constructor; discriminate.
    + reflexivity.
  - apply (number_clause_translation
             [clause "title" "string" (VStr "a")]
             [clause "createdAt" "date" (VObj ∅)]
             (clause "age" "number" (VStr "abc")) NaN).
    + reflexivity.
    + repeat constructor.
    + repeat constructor; discriminate.
    + reflexivity.
  - apply (number_clause_translation [] []
             (clause "id" "number" (VStr "9007199254740993"))
             (Finite false 9007199254740992 0)).
    + reflexivity.
    + constructor.
    + constructor.
    + vm_compute. reflexivity.
  - apply (number_clause_translation [] []
             (clause "id" "number" (VStr "1e400")) (Infinity false)).
    + reflexivity.
    + constructor.
    + constructor.
    + vm_compute. reflexivity.
Defined.

(** C4: a number clause whose value is the empty string is not dropped:
    [Number("")] is [0], and the condition maps the property's name to the
    number 0. *)
Theorem empty_string_number_clause
    (pre post : Filter) (c : FilterElement) :
  type (property c) = "number" →
  value c = VStr "" →
  Forall quiet (pre ++ post)%list →
  Forall (fun o => name (property o) ≠ name (property c)) (pre ++ post)%list →
  Number (value c) = Ok (Finite false 0 0)
  ∧ ∃ cond,
      convertFilter (Some (pre ++ c :: post)%list) = Ok cond
      ∧ cond !! KStr (name (property c))
        = Some (Equals (VNum (Finite false 0 0))).
Proof.
  intros Ht Hv Hq Hn.
  assert (Number (value c) = Ok (Finite false 0 0)) as H0 by by rewrite Hv.
  split; [done|].
  destruct (convertFilter_clause_name pre post c Hq _ Hn
              (reducer_number c _ Ht H0)) as (cond & Hc & Hk).
  exists cond. split; [done|]. by rewrite Hk, lookup_singleton_eq.
Qed.

Lemma empty_string_number_clause_witness :
  Number (VStr "") = Ok (Finite false 0 0)
  ∧ ∃ cond,
      convertFilter (Some [clause "age" "number" (VStr "")]) = Ok cond
      ∧ cond !! KStr "age" = Some (Equals (VNum (Finite false 0 0))).
Proof.
  apply (empty_string_number_clause [] [] (clause "age" "number" (VStr ""))).
  - reflexivity.
  - reflexivity.
  - constructor.
  - constructor.
Defined.

(** C5 (the code departs from the claim): a string clause that follows
    another string clause gets no predicate.  On its own, the clause on
    [author] with the value [a.b*c] translates to the case-insensitive
    substring predicate on the escaped value; after the string clause on
    [title], the condition holds the predicate of [title] alone.  This is
    the defect of C1: both clauses write under [Op.and], and the spread of
    [memo] puts the earlier array back. *)
Theorem later_string_clause_gets_no_predicate :
  let first := clause "title" "string" (VStr "x") in
  let second := clause "author" "string" (VStr "a.b*c") in
  let like (column pattern : string) :=
    where_ (fn "LOWER" [col column]) [(Op_like, fn "LOWER" [str pattern])] in
  convertFilter (Some [second])
  = Ok {[ KSym Op_and := Conjunction [like "author" "%a\.b\*c%"] ]}
  ∧ convertFilter (Some [first; second])
    = Ok {[ KSym Op_and := Conjunction [like "title" "%x%"] ]}.
Proof.
  intros first second like. split.
  - vm_compute. reflexivity.
  - vm_compute. reflexivity.
Qed.

(** What the object of the date branch holds. *)
Lemma elem_of_bounds_gte from to x :
  (Op_gte, x) ∈ bounds from to ↔ truthy from = true ∧ x = from.
Proof.
  unfold bounds. destruct (truthy from), (truthy to); simpl;
    rewrite ?elem_of_cons, ?elem_of_nil; intuition congruence.
Qed.

Lemma elem_of_bounds_lte from to x :
  (Op_lte, x) ∈ bounds from to ↔ truthy to = true ∧ x = to.
Proof.
  unfold bounds. destruct (truthy from), (truthy to); simpl;
    rewrite ?elem_of_cons, ?elem_of_nil; intuition congruence.
Qed.

Lemma elem_of_bounds_op from to o x :
  (o, x) ∈ bounds from to → o = Op_gte ∨ o = Op_lte.
Proof.
  unfold bounds. destruct (truthy from), (truthy to); simpl;
    rewrite ?elem_of_cons, ?elem_of_nil; intuition congruence.
Qed.

(** C6: a date or datetime clause with at least one bound given (truthy)
    yields a range under the property's name, which holds [>= from] exactly
    when [from] is given and [<= to] exactly when [to] is given, and both,
    in this order, when both are given.  The clause stands inside a filter
    whose other clauses translate and target other properties. *)
Theorem date_range_translation
    (pre post : Filter) (c : FilterElement) (from to : val) :
  type (property c) = "date" ∨ type (property c) = "datetime" →
  Forall quiet (pre ++ post)%list →
  Forall (fun o => name (property o) ≠ name (property c)) (pre ++ post)%list →
  get (value c) "from" = Ok from →
  get (value c) "to" = Ok to →
  truthy from = true ∨ truthy to = true →
  ∃ cond range,
    convertFilter (Some (pre ++ c :: post)%list) = Ok cond
    ∧ cond !! KStr (name (property c)) = Some (Range range)
    ∧ (∀ x, (Op_gte, x) ∈ range ↔ truthy from = true ∧ x = from)
    ∧ (∀ x, (Op_lte, x) ∈ range ↔ truthy to = true ∧ x = to)
    ∧ (∀ o x, (o, x) ∈ range → o = Op_gte ∨ o = Op_lte)
    ∧ (truthy from = true → truthy to = true →
       range = [(Op_gte, from); (Op_lte, to)]).
Proof.
  intros Ht Hq Hn Hfrom Hto Hb.
  destruct (convertFilter_clause_name pre post c Hq _ Hn
              (reducer_date c from to Ht Hfrom Hto)) as (cond & Hc & Hk).
  exists cond, (bounds from to). split; [done|]. split.
  { rewrite Hk, lookup_singleton_eq.
    by destruct Hb as [-> | ->]; rewrite ?orb_true_r. }
  split_and!.
  - apply elem_of_bounds_gte.
  - apply elem_of_bounds_lte.
  - apply elem_of_bounds_op.
  - unfold bounds. by intros -> ->.
Qed.

Lemma date_range_translation_witness :
  ∃ cond range,
    convertFilter
      (Some [clause "title" "string" (VStr "a");
             clause "createdAt" "date" (VObj {[ "from" := VStr "2019-01-01" ]})])
    = Ok cond
    ∧ cond !! KStr "createdAt" = Some (Range range)
    ∧ (∀ x, (Op_gte, x) ∈ range ↔ true = true ∧ x = VStr "2019-01-01")
    ∧ (∀ x, (Op_lte, x) ∈ range ↔ false = true ∧ x = VUndefined)
    ∧ (∀ o x, (o, x) ∈ range → o = Op_gte ∨ o = Op_lte)
    ∧ (true = true → false = true →
       range = [(Op_gte, VStr "2019-01-01"); (Op_lte, VUndefined)]).
Proof.
  apply (date_range_translation
           [clause "title" "string" (VStr "a")] []
           (clause "createdAt" "date" (VObj {[ "from" := VStr "2019-01-01" ]}))
           (VStr "2019-01-01") VUndefined).
  - by left.
  - repeat constructor.
  - repeat constructor; discriminate.
  - reflexivity.
  - reflexivity.
  - by left.
Defined.

(** ** The parameter normaliser *)

Section ParseParams.

Implicit Types (o : object) (p : Property) (ps : list Property).

Lemma deref_fresh (h : heap) o : deref (h ++ [o]) (length h) = o.
Proof. unfold deref. by rewrite list_lookup_middle. Qed.

Lemma delete_property_fresh (h : heap) o k :
  delete_property (length h) k (h ++ [o]) = (h ++ [delete k o])%list.
Proof.
  unfold delete_property.
  rewrite <-(Nat.add_0_r (length h)) at 1. by rewrite alter_app_r.
Qed.

Lemma parseParams_sift this params (h : heap) :
  parseParams this params h
  = (length h, (h ++ [foldl sift (deref h params) (properties this)])%list).
Proof.
  unfold parseParams, alloc. f_equal.
  generalize (deref h params) as o.
  induction (properties this) as [|p ps IH]; intros o; [done|].
  simpl. rewrite <-IH. f_equal. unfold sift.
  rewrite deref_fresh.
  case_bool_decide; [destruct (o !! name p) as [[| | | |[]|]|]|];
    rewrite ?delete_property_fresh; destruct (isEditable p); simpl;
    by rewrite ?delete_property_fresh.
Qed.

(** The loop only deletes. *)
Lemma sift_lookup o p k :
  sift o p !! k = None ∨ sift o p !! k = o !! k.
Proof.
  unfold sift.
  repeat (case_bool_decide || case_match || simpl);
    rewrite ?lookup_delete; repeat case_decide; auto.
Qed.

Lemma sift_None o p k : o !! k = None → sift o p !! k = None.
Proof. intros H. destruct (sift_lookup o p k); congruence. Qed.

Lemma foldl_sift_None ps o k :
  o !! k = None → foldl sift o ps !! k = None.
Proof.
  revert o. induction ps as [|p ps IH]; intros o H; [done|].
  simpl. by apply IH, sift_None.
Qed.

Lemma sift_other o p k : name p ≠ k → sift o p !! k = o !! k.
Proof.
  intros H. unfold sift.
  repeat (case_bool_decide || case_match || simpl);
    by rewrite ?lookup_delete_ne.
Qed.

Lemma foldl_sift_other ps o k :
  Forall (fun p => name p ≠ k) ps → foldl sift o ps !! k = o !! k.
Proof.
  intros H. revert o. induction H as [|p ps Hp _ IH]; intros o; [done|].
  simpl. by rewrite IH, sift_other.
Qed.

Lemma sift_not_editable o p :
  isEditable p = false → sift o p !! name p = None.
Proof.
  intros H. unfold sift. rewrite H. simpl. apply lookup_delete_eq.
Qed.

Lemma sift_empty_string o p :
  type p ∈ ["number"; "float"; "reference"] →
  o !! name p = Some (VStr "") →
  sift o p !! name p = None.
Proof.
  intros Ht Hv. unfold sift. rewrite Hv, bool_decide_true by done.
  destruct (isEditable p); simpl; by rewrite ?lookup_delete_eq.
Qed.

Lemma foldl_sift_not_editable ps o p :
  p ∈ ps → isEditable p = false → foldl sift o ps !! name p = None.
Proof.
  intros Hp He. revert o.
  induction Hp as [p ps | p q ps _ IH]; intros o; simpl.
  - by apply foldl_sift_None, sift_not_editable.
  - by apply IH.
Qed.

Lemma foldl_sift_empty_string ps o p :
  p ∈ ps →
  type p ∈ ["number"; "float"; "reference"] →
  o !! name p = Some (VStr "") →
  foldl sift o ps !! name p = None.
Proof.
  intros Hp Ht. revert o.
  induction Hp as [p ps | p q ps _ IH]; intros o Hv; simpl.
  - by apply foldl_sift_None, sift_empty_string.
  - destruct (sift_lookup o q (name p)) as [H|H].
    + by apply foldl_sift_None.
    + apply IH; [done|]. by rewrite H.
Qed.

End ParseParams.

(** C7: the normaliser works on a fresh copy of the raw parameters.  In the
    result, the name of a number, float or reference property whose raw
    value is the empty string is absent, the name of a property that is not
    editable is absent whatever its value, and a key that names no property
    keeps its raw value.  No object that was in the store before the call,
    the raw parameters among them, is changed. *)
Theorem parseParams_normalizes (this : Resource) (params : ref) (h : heap) :
  let parsedParams := (parseParams this params h).1 in
  let h' := (parseParams this params h).2 in
  let raw := deref h params in
  let parsed := deref h' parsedParams in
  (∀ p, p ∈ properties this →
        type p ∈ ["number"; "float"; "reference"] →
        raw !! name p = Some (VStr "") →
        parsed !! name p = None)
  ∧ (∀ p, p ∈ properties this → isEditable p = false →
          parsed !! name p = None)
  ∧ (∀ k, Forall (fun p => name p ≠ k) (properties this) →
          parsed !! k = raw !! k)
  ∧ parsedParams = length h
  ∧ (∀ r o, h !! r = Some o → h' !! r = Some o).
Proof.
  rewrite parseParams_sift. simpl. rewrite deref_fresh. split_and!.
  - intros p Hp Ht Hv. by apply foldl_sift_empty_string.
  - intros p Hp He. by apply foldl_sift_not_editable.
  - intros k Hk. by apply foldl_sift_other.
  - done.
  - intros r o Hr. by apply lookup_app_l_Some.
Qed.

Lemma parseParams_normalizes_witness :
  let raw : object :=
    {[ "id" := VStr "7"; "email" := VStr "a@b.c";
       "userId" := VStr ""; "extra" := VStr "x" ]} in
  let parsedParams := (parseParams Sample.users 0 [raw]).1 in
  let h' := (parseParams Sample.users 0 [raw]).2 in
  deref h' parsedParams !! "userId" = None
  ∧ deref h' parsedParams !! "id" = None
  ∧ deref h' parsedParams !! "extra" = Some (VStr "x")
  ∧ parsedParams = 1
  ∧ h' !! 0 = Some raw.
Proof.
  intros raw parsedParams h'.
  destruct (parseParams_normalizes Sample.users 0 [raw])
    as (Hempty & Hedit & Hother & Hfresh & Hstore).
  split_and!.
  - apply (Hempty {| name := "userId"; type := "reference";
                     isEditable := true |}).
    + repeat constructor.
    + repeat constructor.
    + reflexivity.
  - apply (Hedit {| name := "id"; type := "number"; isEditable := false |}).
    + repeat constructor.
    + reflexivity.
  - etransitivity; [apply (Hother "extra")|reflexivity].
    repeat constructor; discriminate.
  - exact Hfresh.
  - apply Hstore. reflexivity.
Defined.

(** ** The adapter's operations *)

Lemma append_assoc (a b c : string) : (a +:+ b) +:+ c = a +:+ (b +:+ c).
Proof.
  induction a as [|x a IH]; [done|].
  change (String x ((a +:+ b) +:+ c) = String x (a +:+ (b +:+ c))).
  by rewrite IH.
Qed.

Lemma virtual_sort_message_contains (sortBy model : string) :
  contains sortBy (virtual_sort_message sortBy model)
  ∧ contains model (virtual_sort_message sortBy model).
Proof.
  unfold virtual_sort_message, contains. split.
  - eexists ("Cannot sort on VIRTUAL Datatype " +:+ quote), _.
    rewrite append_assoc. reflexivity.
  - eexists ("Cannot sort on VIRTUAL Datatype " +:+ quote +:+ sortBy +:+ quote
             +:+ " on resource " +:+ quote), _.
    rewrite !append_assoc. reflexivity.
Qed.

Section Operations.

Context {DB : Type} `{!Storage DB}.

(** C8: when the storage rejects a [create], an [update], or the read
    that follows an [update], with an error named
    [SequelizeValidationError], the operation throws the validation error
    that [createValidationError] builds from it; any other error is thrown
    again as it is.  In no case does the operation return. *)
Theorem storage_errors_are_rethrown
    (this : Resource) (id : val) (params : ref) (w : World DB)
    (error : error) :
  let thrown :=
    if (JS.name error =? "SequelizeValidationError")%string
    then createValidationError error else error in
  let values :=
    deref (parseParams this params (store w)).2
          (parseParams this params (store w)).1 in
  let where_pk := (Sequelize.primaryKeyField (SequelizeModel this), id) in
  ((SequelizeModel_create values (db w)).1 = Throw error →
   (create this params w).1 = Throw thrown)
  ∧ ((SequelizeModel_update values where_pk (db w)).1 = Throw error →
     (update this id params w).1 = Throw thrown)
  ∧ (∀ d, SequelizeModel_update values where_pk (db w) = (Ok (), d) →
          (SequelizeModel_findByPk id d).1 = Throw error →
          (update this id params w).1 = Throw thrown).
Proof.
  unfold create, update, findById, issue, rethrow, SEQUELIZE_VALIDATION_ERROR.
  destruct (parseParams this params (store w)) as [parsedParams h]. simpl.
  split_and!.
  - destruct (SequelizeModel_create _ _) as [r d]. simpl. intros ->.
    simpl. by destruct (_ =? _)%string.
  - destruct (SequelizeModel_update _ _ _) as [r d]. simpl. intros ->.
    simpl. by destruct (_ =? _)%string.
  - intros d ->. simpl.
    destruct (SequelizeModel_findByPk _ _) as [r d']. simpl. intros ->.
    simpl. by destruct (_ =? _)%string.
Qed.

(** C9: when the requested [sortBy] field is an attribute of VIRTUAL type,
    [find] throws an [Error] whose message names the field and the
    resource's model, and leaves the world as it was: no call has been
    issued to the storage. *)
Theorem find_rejects_virtual_sort
    (this : Resource) (filter : option Filter) (options : Options)
    (w : World DB) (s : Sort) (field : string)
    (attribute : Sequelize.Attribute) :
  sort options = Some s →
  sortBy s = Some field →
  Sequelize.fieldRawAttributesMap (SequelizeModel this) !! field
    = Some attribute →
  Sequelize.type attribute = Sequelize.VIRTUAL →
  ∃ e,
    find this filter options w = (Throw e, w)
    ∧ JS.name e = "Error"
    ∧ contains field (JS.message e)
    ∧ contains (Sequelize.name (SequelizeModel this)) (JS.message e).
Proof.
  intros Hs Hf Ha Ht. unfold find. rewrite Hs. simpl. rewrite Hf. simpl.
  rewrite Ha, Ht. simpl. eexists. split; [done|]. split; [done|].
  apply virtual_sort_message_contains.
Qed.

(** C10 (amended): when [sort] is absent, so that [sortBy] is [undefined]
    and the key read is "undefined", or when [sortBy] names neither an
    attribute of the model nor a member that a plain object inherits from
    [Object.prototype], the lookup in [fieldRawAttributesMap] is
    [undefined], and [find] throws a [TypeError] on reading its [type],
    with no call issued to the storage. *)
Theorem find_unknown_sort_field_throws
    (this : Resource) (filter : option Filter) (options : Options)
    (w : World DB) :
  let key :=
    property_key (match sort options with
                  | Some s => sortBy s
                  | None => None
                  end) in
  Sequelize.fieldRawAttributesMap (SequelizeModel this) !! key = None →
  key ∉ Object_prototype →
  ∃ msg, find this filter options w = (Throw (TypeError msg), w).
Proof.
  intros key H Hp. unfold find. cbv zeta.
  assert (property_key
            (sortBy (default {| direction := None; sortBy := None |}
                             (sort options))) = key) as ->
    by (subst key; by destruct (sort options)).
  rewrite H, bool_decide_false by done. by eexists.
Qed.

End Operations.

Lemma storage_errors_are_rethrown_witness :
  (create Sample.users 0 (Sample.world [∅])).1
  = Throw (mkError "ValidationError" "Validation error"
             [("email", "Validation isEmail on email failed")])
  ∧ (update Sample.users (VStr "1") 0 (Sample.world [∅])).1
    = Throw Sample.broken.
Proof.
  split.
  - exact (proj1 (@storage_errors_are_rethrown _ Sample.rows Sample.users
                    (VStr "1") 0 (Sample.world [∅]) Sample.invalid)
                 eq_refl).
  - exact (proj1 (proj2 (@storage_errors_are_rethrown _ Sample.rows
                           Sample.users (VStr "1") 0 (Sample.world [∅])
                           Sample.broken))
                 eq_refl).
Defined.

Lemma find_rejects_virtual_sort_witness :
  ∃ e,
    find Sample.users None
         {| limit := None; offset := None;
            sort := Some {| direction := None; sortBy := Some "name" |} |}
         (Sample.world []) = (Throw e, Sample.world [])
    ∧ JS.name e = "Error"
    ∧ contains "name" (JS.message e)
    ∧ contains "User" (JS.message e).
Proof.
  apply (find_rejects_virtual_sort Sample.users None _ (Sample.world [])
           {| direction := None; sortBy := Some "name" |} "name"
           {| Sequelize.type := Sequelize.VIRTUAL |}).
  - reflexivity.
  - reflexivity.
  - reflexivity.
  - reflexivity.
Defined.

Lemma find_unknown_sort_field_throws_witness :
  (∃ msg,
     find Sample.users None
          {| limit := None; offset := None; sort := None |}
          (Sample.world [])
     = (Throw (TypeError msg), Sample.world []))
  ∧ (∃ msg,
       find Sample.users None
            {| limit := None; offset := None;
               sort := Some {| direction := None; sortBy := Some "nickname" |} |}
            (Sample.world [])
       = (Throw (TypeError msg), Sample.world [])).
Proof.
  split.
  - apply (@find_unknown_sort_field_throws _ Sample.rows Sample.users None
             {| limit := None; offset := None; sort := None |}
             (Sample.world [])).
    + reflexivity.
    + apply (bool_decide_unpack _). vm_compute. exact I.
  - apply (@find_unknown_sort_field_throws _ Sample.rows Sample.users None
             {| limit := None; offset := None;
                sort := Some {| direction := None;
                                sortBy := Some "nickname" |} |}
             (Sample.world [])).
    + reflexivity.
    + apply (bool_decide_unpack _). vm_compute. exact I.
Defined.

(** C10 (counterexample): [sortBy] "constructor" names no attribute of the
    model, and [find] throws nothing: the lookup finds the member that the
    plain object inherits, its [type] is [undefined], and the [findAll] is
    issued, ordered by that name. *)
Lemma find_sort_by_inherited_member_queries :
  let options :=
    {| limit := None; offset := None;
       sort := Some {| direction := None; sortBy := Some "constructor" |} |} in
  Sequelize.fieldRawAttributesMap (SequelizeModel Sample.users)
    !! "constructor" = None
  ∧ find Sample.users None options (Sample.world [])
    = (Ok [],
       {| store := []; db := [];
          calls :=
            [Sequelize.FindAll
               {| Sequelize.where' := ∅;
                  Sequelize.limit := 20;
                  Sequelize.offset := 0;
                  Sequelize.order := [(Some "constructor", "ASC")] |}] |})
  ∧ ¬ (∃ msg,
         find Sample.users None options (Sample.world [])
         = (Throw (TypeError msg), Sample.world [])).
Proof.
  intros options.
  assert (find Sample.users None options (Sample.world [])
          = (Ok [],
             {| store := []; db := [];
                calls :=
                  [Sequelize.FindAll
                     {| Sequelize.where' := ∅;
                        Sequelize.limit := 20;
                        Sequelize.offset := 0;
                        Sequelize.order := [(Some "constructor", "ASC")] |}] |}))
    as Hfind by (vm_compute; reflexivity).
  split_and!.
  - reflexivity.
  - exact Hfind.
  - intros [msg H]. rewrite Hfind in H. discriminate.
Qed.

(** ** More on the filter translator *)

Section Keys.

Implicit Types (m : condition) (c : FilterElement) (l : Filter).

(** A clause writes under its target and nowhere else. *)
Lemma reducer_keys c m k :
  reducer ∅ c = Ok m → is_Some (m !! k) → k = target c.
Proof.
  unfold target, reducer, escape, mbind, result_bind, JS.bind.
  intros H [p Hp].
  repeat (case_match; simplify_eq/=; try done);
    rewrite ?with_spread_empty in Hp;
    try (by apply lookup_singleton_Some in Hp as [<- _]);
    by rewrite lookup_empty in Hp.
Qed.

(** What a clause leaves under [Op.and] is the one predicate of a string
    clause. *)
Lemma reducer_and_inv c m p :
  reducer ∅ c = Ok m → m !! KSym Op_and = Some p →
  type (property c) = "string"
  ∧ ∃ s, ToString (value c) = Ok s
         ∧ p = Conjunction
                 [where_ (fn "LOWER" [col (name (property c))])
                    [(Op_like,
                      fn "LOWER" [str ("%" +:+ replace_meta s +:+ "%")])]].
Proof.
  intros Hm Hp.
  destruct (decide (type (property c) = "string")) as [Ht|Ht].
  - split; [done|]. unfold reducer, escape in Hm. rewrite Ht in Hm.
    unfold mbind, result_bind, JS.bind in Hm.
    destruct (ToString (value c)) as [s|]; [|done].
    exists s. split; [done|]. simplify_eq/=.
    rewrite with_spread_empty, lookup_singleton_eq in Hp. congruence.
  - rewrite (reducer_and_other c m Hm Ht) in Hp. done.
Qed.

Lemma reducer_default c :
  type (property c) ∉ ["string"; "number"; "date"; "datetime"] →
  reducer ∅ c = Ok {[ KStr (name (property c)) := Equals (value c) ]}.
Proof.
  intros Ht. unfold reducer.
  destruct (String.eqb_spec (type (property c)) "string") as [E|_];
    [rewrite E in Ht; exfalso; apply Ht; repeat constructor|].
  destruct (String.eqb_spec (type (property c)) "number") as [E|_];
    [rewrite E in Ht; exfalso; apply Ht; repeat constructor|].
  destruct (String.eqb_spec (type (property c)) "date") as [E|_];
    [rewrite E in Ht; exfalso; apply Ht; repeat constructor|].
  destruct (String.eqb_spec (type (property c)) "datetime") as [E|_];
    [rewrite E in Ht; exfalso; apply Ht; repeat constructor|].
  simpl. by rewrite with_spread_empty.
Qed.

Lemma convertFilter_singleton c : convertFilter (Some [c]) = reducer ∅ c.
Proof.
  simpl. unfold mbind, result_bind, JS.bind. by destruct (reducer ∅ c).
Qed.

(** Two clauses with different targets write apart from each other. *)
Lemma reducer_apart c1 c2 m1 m2 k :
  target c1 ≠ target c2 →
  reducer ∅ c1 = Ok m1 → reducer ∅ c2 = Ok m2 →
  m1 !! k = None ∨ m2 !! k = None.
Proof.
  intros Hne H1 H2.
  destruct (m1 !! k) as [p1|] eqn:E1; [|by left].
  destruct (m2 !! k) as [p2|] eqn:E2; [|by right].
  exfalso. apply Hne.
  rewrite <-(reducer_keys c1 m1 k H1) by (rewrite E1; by eexists).
  apply (reducer_keys c2 m2 k H2). rewrite E2. by eexists.
Qed.

End Keys.

(** X1: translating a concatenation is translating the parts and taking
    the union of the two conditions, in which the first part wins on a
    shared key; the error of the first part that raises is the error of
    the whole. *)
Theorem convertFilter_concat (l1 l2 : Filter) :
  convertFilter (Some (l1 ++ l2)%list)
  = match convertFilter (Some l1), convertFilter (Some l2) with
    | Ok m1, Ok m2 => Ok (m1 ∪ m2)
    | Ok _, Throw e => Throw e
    | Throw e, _ => Throw e
    end.
Proof.
  rewrite convertFilter_app. unfold mbind, result_bind, JS.bind.
  destruct (convertFilter (Some l1)); [|done].
  by destruct (convertFilter (Some l2)).
Qed.

(** X2: an entry that a prefix of the filter has put into the condition is
    in the condition of the whole filter, unchanged: no later clause
    overwrites or removes it. *)
Theorem earlier_entries_survive
    (pre post : Filter) (m m' : condition) (k : key) (p : predicate) :
  convertFilter (Some pre) = Ok m →
  convertFilter (Some (pre ++ post)%list) = Ok m' →
  m !! k = Some p →
  m' !! k = Some p.
Proof.
  intros Hm Hm' Hk. rewrite convertFilter_app, Hm in Hm'.
  unfold mbind, result_bind, JS.bind in Hm'.
  destruct (convertFilter (Some post)) as [m2|]; simplify_eq/=.
  by apply lookup_union_Some_l.
Qed.

Lemma earlier_entries_survive_witness :
  ∃ m',
    convertFilter
      (Some [clause "age" "number" (VStr "7");
             clause "age" "number" (VStr "8");
             clause "age" "boolean" (VBool true)]) = Ok m'
    ∧ m' !! KStr "age" = Some (Equals (VNum (Finite false 7 0))).
Proof.
  exists {[ KStr "age" := Equals (VNum (Finite false 7 0)) ]}.
  split; [vm_compute; reflexivity|].
  apply (earlier_entries_survive
           [clause "age" "number" (VStr "7")]
           [clause "age" "number" (VStr "8");
            clause "age" "boolean" (VBool true)]
           {[ KStr "age" := Equals (VNum (Finite false 7 0)) ]}).
  - vm_compute. reflexivity.
  - vm_compute. reflexivity.
  - reflexivity.
Defined.

(** X3: every key of the condition is the target of a clause of the
    filter: the name of a property whose clause is not of type string, or
    [Op.and] when the filter has a string clause.  The translator never
    writes any other key. *)
Theorem condition_keys_are_targets (l : Filter) (m : condition) (k : key) :
  convertFilter (Some l) = Ok m →
  is_Some (m !! k) →
  ∃ c, c ∈ l ∧ k = target c.
Proof.
  revert m. induction l as [|c l IH]; intros m Hm Hk.
  - simplify_eq/=. rewrite lookup_empty in Hk. by destruct Hk.
  - rewrite convertFilter_cons in Hm.
    unfold mbind, result_bind, JS.bind in Hm.
    destruct (reducer ∅ c) as [m1|] eqn:H1; [|done].
    destruct (convertFilter (Some l)) as [m2|]; simplify_eq/=.
    apply lookup_union_is_Some in Hk as [Hk|Hk].
    + exists c. split; [by left|]. by eapply reducer_keys.
    + destruct (IH m2 eq_refl Hk) as (c' & Hc' & ->).
      exists c'. split; [by right|done].
Qed.

Lemma condition_keys_are_targets_witness :
  ∃ c,
    c ∈ [clause "title" "string" (VStr "a"); clause "age" "number" (VStr "7")]
    ∧ KStr "age" = target c.
Proof.
  apply (condition_keys_are_targets
           [clause "title" "string" (VStr "a");
            clause "age" "number" (VStr "7")]
           {[ KSym Op_and :=
                Conjunction
                  [where_ (fn "LOWER" [col "title"])
                     [(Op_like, fn "LOWER" [str "%a%"])]];
              KStr "age" := Equals (VNum (Finite false 7 0)) ]}).
  - vm_compute. reflexivity.
  - by eexists.
Defined.

(** X4: whatever the number of string clauses, the array under [Op.and]
    holds exactly one predicate, and it is the one of the first string
    clause of the filter. *)
Theorem and_entry_is_the_first_string_clause
    (l : Filter) (m : condition) (p : predicate) :
  convertFilter (Some l) = Ok m →
  m !! KSym Op_and = Some p →
  ∃ pre c post s,
    l = (pre ++ c :: post)%list
    ∧ Forall (fun o => type (property o) ≠ "string") pre
    ∧ type (property c) = "string"
    ∧ ToString (value c) = Ok s
    ∧ p = Conjunction
            [where_ (fn "LOWER" [col (name (property c))])
               [(Op_like,
                 fn "LOWER" [str ("%" +:+ replace_meta s +:+ "%")])]].
Proof.
  revert m. induction l as [|c l IH]; intros m Hm Hp.
  - by simplify_eq/=.
  - rewrite convertFilter_cons in Hm.
    unfold mbind, result_bind, JS.bind in Hm.
    destruct (reducer ∅ c) as [m1|] eqn:H1; [|done].
    destruct (convertFilter (Some l)) as [m2|]; simplify_eq/=.
    apply lookup_union_Some_raw in Hp as [Hp|[Hnone Hp]].
    + destruct (reducer_and_inv c m1 p H1 Hp) as (Ht & s & Hs & ->).
      by exists [], c, l, s.
    + destruct (IH m2 eq_refl Hp) as (pre & c' & post & s & -> & Hpre & H).
      exists (c :: pre), c', post, s. split; [done|]. split; [|done].
      constructor; [|done]. intros Ht.
      destruct (ToString (value c)) as [s'|] eqn:Hs'.
      * rewrite (reducer_string c s' Ht Hs') in H1.
        injection H1 as <-. by rewrite lookup_singleton_eq in Hnone.
      * unfold reducer, escape in H1. rewrite Ht, Hs' in H1. done.
Qed.

Lemma and_entry_is_the_first_string_clause_witness :
  ∃ pre c post s,
    [clause "age" "number" (VStr "7");
     clause "title" "string" (VStr "a");
     clause "author" "string" (VStr "b")] = (pre ++ c :: post)%list
    ∧ Forall (fun o => type (property o) ≠ "string") pre
    ∧ type (property c) = "string"
    ∧ ToString (value c) = Ok s
    ∧ Conjunction
        [where_ (fn "LOWER" [col "title"])
           [(Op_like, fn "LOWER" [str "%a%"])]]
      = Conjunction
          [where_ (fn "LOWER" [col (name (property c))])
             [(Op_like,
               fn "LOWER" [str ("%" +:+ replace_meta s +:+ "%")])]].
Proof.
  apply (and_entry_is_the_first_string_clause
           [clause "age" "number" (VStr "7");
            clause "title" "string" (VStr "a");
            clause "author" "string" (VStr "b")]
           {[ KSym Op_and :=
                Conjunction
                  [where_ (fn "LOWER" [col "title"])
                     [(Op_like, fn "LOWER" [str "%a%"])]];
              KStr "age" := Equals (VNum (Finite false 7 0)) ]}).
  - vm_compute. reflexivity.
  - reflexivity.
Defined.

(** X5: the translation stops at the first clause that raises: when the
    clauses before [c] translate and [c] alone raises [e], the whole filter
    raises [e], whatever comes after [c]. *)
Theorem first_raising_clause_decides
    (pre post : Filter) (c : FilterElement) (e : error) :
  Forall quiet pre →
  convertFilter (Some [c]) = Throw e →
  convertFilter (Some (pre ++ c :: post)%list) = Throw e.
Proof.
  intros Hpre Hc. rewrite convertFilter_singleton in Hc.
  destruct (convertFilter_quiet _ Hpre) as [m Hm].
  by rewrite convertFilter_app, Hm, convertFilter_cons, Hc.
Qed.

Lemma first_raising_clause_decides_witness :
  convertFilter
    (Some [clause "age" "number" (VStr "7");
           clause "born" "date" VUndefined;
           clause "died" "date" VNull])
  = Throw (TypeError "Cannot read properties of undefined (reading 'from')").
Proof.
  apply (first_raising_clause_decides
           [clause "age" "number" (VStr "7")]
           [clause "died" "date" VNull]
           (clause "born" "date" VUndefined)).
  - repeat constructor.
  - reflexivity.
Defined.

(** X6: a date or datetime clause whose value is [undefined] or [null]
    makes the translation throw a [TypeError] (the read of [value.from]),
    when the clauses before it translate. *)
Theorem date_clause_without_value_raises
    (pre post : Filter) (c : FilterElement) :
  type (property c) = "date" ∨ type (property c) = "datetime" →
  value c = VUndefined ∨ value c = VNull →
  Forall quiet pre →
  ∃ msg,
    convertFilter (Some (pre ++ c :: post)%list) = Throw (TypeError msg).
Proof.
  intros Ht Hv Hpre.
  destruct (convertFilter_quiet _ Hpre) as [m Hm].
  rewrite convertFilter_app, Hm, convertFilter_cons.
  unfold reducer.
  destruct Ht as [-> | ->], Hv as [-> | ->]; by eexists.
Qed.

Lemma date_clause_without_value_raises_witness :
  ∃ msg,
    convertFilter
      (Some [clause "title" "string" (VStr "a");
             clause "createdAt" "datetime" VUndefined])
    = Throw (TypeError msg).
Proof.
  apply (date_clause_without_value_raises
           [clause "title" "string" (VStr "a")] []
           (clause "createdAt" "datetime" VUndefined)).
  - by right.
  - by left.
  - repeat constructor.
Defined.

(** X7: when the clauses translate and no two of them have the same
    target, the condition does not depend on the order of the clauses. *)
Theorem clause_order_is_irrelevant (l l' : Filter) :
  l ≡ₚ l' →
  Forall quiet l →
  NoDup (target <$> l) →
  convertFilter (Some l) = convertFilter (Some l').
Proof.
  induction 1 as [|c l l' Hperm IH|c1 c2 l|l1 l2 l3 H12 IH12 H23 IH23];
    intros Hq Hnd.
  - done.
  - apply Forall_cons in Hq as [_ Hq]. apply NoDup_cons in Hnd as [_ Hnd].
    by rewrite !convertFilter_cons, IH.
  - apply Forall_cons in Hq as [Hq1 Hq]. apply Forall_cons in Hq as [Hq2 Hq].
    apply NoDup_cons in Hnd as [Hne _].
    rewrite !convertFilter_cons. unfold quiet in Hq1, Hq2.
    destruct (reducer ∅ c1) as [m1|] eqn:H1; [|done].
    destruct (reducer ∅ c2) as [m2|] eqn:H2; [|done].
    unfold mbind, result_bind, JS.bind.
    destruct (convertFilter (Some l)) as [m|]; [|done].
    f_equal. apply map_eq. intros k. rewrite !lookup_union.
    assert (target c1 ≠ target c2) as Hne'.
    { intros E. apply Hne. rewrite ?fmap_cons, E. by left. }
    destruct (reducer_apart c1 c2 m1 m2 k Hne' H1 H2) as [-> | ->];
      by destruct (m1 !! k), (m2 !! k), (m !! k).
  - rewrite IH12 by done. apply IH23.
    + by rewrite <-H12.
    + by rewrite <-H12.
Qed.

Lemma clause_order_is_irrelevant_witness :
  convertFilter
    (Some [clause "title" "string" (VStr "a");
           clause "age" "number" (VStr "7");
           clause "active" "boolean" (VBool true)])
  = convertFilter
      (Some [clause "active" "boolean" (VBool true);
             clause "title" "string" (VStr "a");
             clause "age" "number" (VStr "7")]).
Proof.
  apply clause_order_is_irrelevant.
  - symmetry.
    apply (Permutation_cons_append
             [clause "title" "string" (VStr "a");
              clause "age" "number" (VStr "7")]
             (clause "active" "boolean" (VBool true))).
  - repeat constructor.
  - apply (bool_decide_unpack _). vm_compute. exact I.
Defined.

Lemma convertFilter_without_nan_clause
    (pre post : Filter) (c : FilterElement) :
  type (property c) = "number" →
  Number (value c) = Ok NaN →
  convertFilter (Some (pre ++ c :: post)%list)
  = convertFilter (Some (pre ++ post)%list).
Proof.
  intros Ht Hv. rewrite !convertFilter_app, convertFilter_cons.
  rewrite (reducer_number c NaN Ht Hv).
  unfold mbind, result_bind, JS.bind.
  destruct (convertFilter (Some pre)) as [m1|]; [|done].
  destruct (convertFilter (Some post)) as [m2|]; [|done].
  cbn [isNaN]. by rewrite (left_id_L ∅ (∪)).
Qed.

(** X8: a number clause whose value coerces to [NaN] changes nothing: the
    filter translates as the filter without the clause, to the same
    condition or the same error, whatever the other clauses are. *)
Theorem unparsable_number_clause_is_ignored
    (pre post : Filter) (c : FilterElement) :
  type (property c) = "number" →
  Number (value c) = Ok NaN →
  convertFilter (Some (pre ++ c :: post)%list)
  = convertFilter (Some (pre ++ post)%list).
Proof.
  intros Ht Hv. rewrite !convertFilter_app, convertFilter_cons.
  rewrite (reducer_number c NaN Ht Hv).
  unfold mbind, result_bind, JS.bind.
  destruct (convertFilter (Some pre)) as [m1|]; [|done].
  destruct (convertFilter (Some post)) as [m2|]; [|done].
  cbn [isNaN]. by rewrite (left_id_L ∅ (∪)).
Qed.

Lemma unparsable_number_clause_is_ignored_witness :
  convertFilter
    (Some [clause "age" "number" (VStr "7");
           clause "age" "number" (VStr "seven");
           clause "title" "string" (VStr "a")])
  = convertFilter
      (Some [clause "age" "number" (VStr "7");
             clause "title" "string" (VStr "a")]).
Proof.
  apply (unparsable_number_clause_is_ignored
           [clause "age" "number" (VStr "7")]
           [clause "title" "string" (VStr "a")]
           (clause "age" "number" (VStr "seven"))).
  - reflexivity.
  - reflexivity.
Defined.

(** X9: a clause that occurs a second time in the filter changes nothing:
    the filter translates as the filter without the second occurrence, to
    the same condition or the same error. *)
Theorem repeated_clause_is_ignored
    (pre mid post : Filter) (c : FilterElement) :
  convertFilter (Some (pre ++ c :: mid ++ c :: post)%list)
  = convertFilter (Some (pre ++ c :: mid ++ post)%list).
Proof.
  rewrite !convertFilter_app, !convertFilter_cons, !convertFilter_app,
    convertFilter_cons.
  unfold mbind, result_bind, JS.bind.
  destruct (convertFilter (Some pre)) as [m1|]; [|done].
  destruct (reducer ∅ c) as [mc|]; [|done].
  destruct (convertFilter (Some mid)) as [m2|]; [|done].
  destruct (convertFilter (Some post)) as [m3|]; [|done].
  f_equal. apply map_eq. intros k. rewrite !lookup_union.
  by destruct (m1 !! k), (mc !! k), (m2 !! k), (m3 !! k).
Qed.

(** X10: a clause of any type other than string, number, date and datetime
    is an equality on its value as it is: inside a filter whose other
    clauses translate and target other properties, the condition maps the
    property's name to the value. *)
Theorem other_type_clause_is_equality
    (pre post : Filter) (c : FilterElement) :
  type (property c) ∉ ["string"; "number"; "date"; "datetime"] →
  Forall quiet (pre ++ post)%list →
  Forall (fun o => name (property o) ≠ name (property c)) (pre ++ post)%list →
  ∃ cond,
    convertFilter (Some (pre ++ c :: post)%list) = Ok cond
    ∧ cond !! KStr (name (property c)) = Some (Equals (value c)).
Proof.
  intros Ht Hq Hn.
  destruct (convertFilter_clause_name pre post c Hq _ Hn
              (reducer_default c Ht)) as (cond & Hc & Hk).
  exists cond. split; [done|]. by rewrite Hk, lookup_singleton_eq.
Qed.

Lemma other_type_clause_is_equality_witness :
  ∃ cond,
    convertFilter
      (Some [clause "title" "string" (VStr "a");
             clause "active" "boolean" (VStr "true")]) = Ok cond
    ∧ cond !! KStr "active" = Some (Equals (VStr "true")).
Proof.
  apply (other_type_clause_is_equality
           [clause "title" "string" (VStr "a")] []
           (clause "active" "boolean" (VStr "true"))).
  - intros H. repeat (apply elem_of_cons in H as [H|H]; [discriminate|]).
    by apply elem_of_nil in H.
  - repeat constructor.
  - repeat constructor; discriminate.
Defined.

(** ** More on the parameter normaliser *)

Section Survivors.

Implicit Types (o : object) (p : Property) (ps : list Property).

Lemma sift_Some o p k v :
  sift o p !! k = Some v
  ↔ o !! k = Some v ∧ (name p = k → lets_through p v).
Proof.
  destruct (decide (name p = k)) as [<-|Hne].
  - assert (∀ P : Prop, (name p = name p → P) ↔ P) as Hrefl
      by (intros P; split; auto).
    rewrite Hrefl. unfold sift, lets_through.
    destruct (isEditable p); simpl.
    + case_bool_decide as Ht.
      * destruct (o !! name p) as [[| | | |[|a s]|]|] eqn:Ho;
          rewrite ?lookup_delete_eq, ?Ho; intuition congruence.
      * intuition congruence.
    + rewrite lookup_delete_eq. intuition congruence.
  - rewrite sift_other by done. tauto.
Qed.

Lemma foldl_sift_Some ps o k v :
  foldl sift o ps !! k = Some v
  ↔ o !! k = Some v ∧ Forall (fun p => name p = k → lets_through p v) ps.
Proof.
  revert o. induction ps as [|p ps IH]; intros o; simpl.
  - split; [by intros ?|by intros [? _]].
  - rewrite IH, sift_Some, Forall_cons. tauto.
Qed.

Lemma foldl_sift_idemp ps o :
  foldl sift (foldl sift o ps) ps = foldl sift o ps.
Proof.
  apply map_eq. intros k. apply option_eq. intros v.
  rewrite !foldl_sift_Some. tauto.
Qed.

End Survivors.

(** X11: the normaliser keeps a key with its raw value exactly when every
    property of that name is editable and does not pair the empty string
    with a number, float or reference type; it adds no key and changes no
    value. *)
Theorem parseParams_keeps_exactly
    (this : Resource) (params : ref) (h : heap) (k : string) (v : val) :
  deref (parseParams this params h).2 (parseParams this params h).1 !! k
    = Some v
  ↔ deref h params !! k = Some v
    ∧ ∀ p, p ∈ properties this → name p = k →
           isEditable p = true
           ∧ ¬ (type p ∈ ["number"; "float"; "reference"] ∧ v = VStr "").
Proof.
  rewrite parseParams_sift. simpl.
  by rewrite deref_fresh, foldl_sift_Some, Forall_forall.
Qed.

(** X12: normalising is idempotent: the parameters that [parseParams]
    returns, normalised again, give a second fresh object with the same
    content. *)
Theorem parseParams_idempotent (this : Resource) (params : ref) (h : heap) :
  let parsed := (parseParams this params h).1 in
  let h1 := (parseParams this params h).2 in
  let again := (parseParams this parsed h1).1 in
  let h2 := (parseParams this parsed h1).2 in
  again ≠ parsed ∧ deref h2 again = deref h1 parsed.
Proof.
  cbv zeta. rewrite (parseParams_sift this params h). cbn [fst snd].
  rewrite parseParams_sift. cbn [fst snd].
  rewrite !deref_fresh, length_app. simpl. split; [lia|].
  apply foldl_sift_idemp.
Qed.

(** ** More on the adapter's operations *)

Section MoreOperations.

Context {DB : Type} `{!Storage DB}.

Lemma create_unfold (this : Resource) (params : ref) (w : World DB) :
  let values := foldl sift (deref (store w) params) (properties this) in
  create this params w
  = (match (SequelizeModel_create values (db w)).1 with
     | Ok record => Ok record
     | Throw error => rethrow error
     end,
     {| store := (store w ++ [values])%list;
        db := (SequelizeModel_create values (db w)).2;
        calls := (calls w ++ [Sequelize.Create values])%list |}).
Proof.
  unfold create, issue. rewrite parseParams_sift. simpl.
  rewrite deref_fresh.
  by destruct (SequelizeModel_create _ _) as [[record|e] d].
Qed.

Lemma update_unfold (this : Resource) (id : val) (params : ref) (w : World DB) :
  let values := foldl sift (deref (store w) params) (properties this) in
  let where_pk := (Sequelize.primaryKeyField (SequelizeModel this), id) in
  let updated := SequelizeModel_update values where_pk (db w) in
  let read := SequelizeModel_findByPk id updated.2 in
  update this id params w
  = match updated.1 with
    | Throw error =>
        (rethrow error,
         {| store := (store w ++ [values])%list; db := updated.2;
            calls := (calls w ++ [Sequelize.Update values where_pk])%list |})
    | Ok _ =>
        (match read.1 with
         | Throw error => rethrow error
         | Ok None =>
             rethrow
               (TypeError "Cannot read properties of null (reading 'toJSON')")
         | Ok (Some record) => Ok record
         end,
         {| store := (store w ++ [values])%list; db := read.2;
            calls := ((calls w ++ [Sequelize.Update values where_pk])
                      ++ [Sequelize.FindByPk id])%list |})
    end.
Proof.
  unfold update, findById, issue. rewrite parseParams_sift. simpl.
  rewrite deref_fresh.
  destruct (SequelizeModel_update _ _ _) as [[[]|e] d]; simpl; [|done].
  by destruct (SequelizeModel_findByPk _ _) as [[[record|]|e] d'].
Qed.

(** X13: past the check of the sort field and with a filter that
    translates, [find] issues exactly one call to the storage, a [findAll]
    whose [where] is the condition of the filter, with [limit] 20 and
    [offset] 0 unless given, ordered by [sortBy] in the given direction in
    upper case, [ASC] when none is given.  It returns one record per row,
    in the storage's order, and throws a rejection of the storage as it
    is. *)
Theorem find_issues_one_findAll
    (this : Resource) (filter : option Filter) (options : Options)
    (w : World DB) (attribute : Sequelize.Attribute) (cond : condition) :
  let s := default {| direction := None; sortBy := None |} (sort options) in
  Sequelize.fieldRawAttributesMap (SequelizeModel this)
    !! property_key (sortBy s) = Some attribute →
  Sequelize.is_VIRTUAL (Sequelize.type attribute) = false →
  convertFilter filter = Ok cond →
  ∃ dir,
    let q :=
      {| Sequelize.where' := cond;
         Sequelize.limit := default 20 (limit options);
         Sequelize.offset := default 0 (offset options);
         Sequelize.order := [(sortBy s, dir)] |} in
    (direction s = None ∨ direction s = Some "" → dir = "ASC")
    ∧ (∀ d, direction s = Some d → d ≠ "" → dir = toUpperCase d)
    ∧ calls (find this filter options w).2
      = (calls w ++ [Sequelize.FindAll q])%list
    ∧ store (find this filter options w).2 = store w
    ∧ (find this filter options w).1
      = match (SequelizeModel_findAll q (db w)).1 with
        | Ok rows =>
            Ok (map (fun row => {| params := row; resource := this |}) rows)
        | Throw e => Throw e
        end.
Proof.
  intros s Ha Hv Hc. unfold find, issue. fold s. rewrite Ha, Hv, Hc.
  exists (toUpperCase
            match direction s with
            | Some d => if (d =? "")%string then "asc" else d
            | None => "asc"
            end).
  split_and!.
  - intros [-> | ->]; reflexivity.
  - intros d -> Hd. by apply String.eqb_neq in Hd as ->.
  - by destruct (SequelizeModel_findAll _ _) as [[rows|e] d].
  - by destruct (SequelizeModel_findAll _ _) as [[rows|e] d].
  - by destruct (SequelizeModel_findAll _ _) as [[rows|e] d].
Qed.

(** X14: past the check of the sort field, a filter that raises makes
    [find] throw that error, with no call issued to the storage. *)
Theorem find_stops_on_filter_error
    (this : Resource) (filter : option Filter) (options : Options)
    (w : World DB) (attribute : Sequelize.Attribute) (e : error) :
  let s := default {| direction := None; sortBy := None |} (sort options) in
  Sequelize.fieldRawAttributesMap (SequelizeModel this)
    !! property_key (sortBy s) = Some attribute →
  Sequelize.is_VIRTUAL (Sequelize.type attribute) = false →
  convertFilter filter = Throw e →
  find this filter options w = (Throw e, w).
Proof.
  intros s Ha Hv Hc. unfold find. fold s. by rewrite Ha, Hv, Hc.
Qed.

(** X15: [create] issues exactly one call to the storage, a [create] of
    the normalised parameters: a key reaches the storage with its raw value
    exactly when every property of that name is editable and does not pair
    the empty string with a number, float or reference type.  The row that
    the storage answers is returned. *)
Theorem create_sends_normalized_params
    (this : Resource) (params : ref) (w : World DB) :
  ∃ values,
    calls (create this params w).2 = (calls w ++ [Sequelize.Create values])%list
    ∧ (∀ k v,
         values !! k = Some v
         ↔ deref (store w) params !! k = Some v
           ∧ ∀ p, p ∈ properties this → name p = k →
                  isEditable p = true
                  ∧ ¬ (type p ∈ ["number"; "float"; "reference"]
                       ∧ v = VStr ""))
    ∧ (∀ record,
         (SequelizeModel_create values (db w)).1 = Ok record →
         (create this params w).1 = Ok record).
Proof.
  rewrite create_unfold. eexists. split_and!.
  - reflexivity.
  - intros k v. by rewrite foldl_sift_Some, Forall_forall.
  - simpl. by intros record ->.
Qed.

(** X16: [update] first issues an [update] of the normalised parameters
    for the row of the given primary key, and reads the row back with
    [findByPk] only when the storage has accepted the update; it issues no
    other call. *)
Theorem update_writes_then_reads
    (this : Resource) (id : val) (params : ref) (w : World DB) :
  ∃ values,
    let where_pk := (Sequelize.primaryKeyField (SequelizeModel this), id) in
    (∀ k v,
       values !! k = Some v
       ↔ deref (store w) params !! k = Some v
         ∧ ∀ p, p ∈ properties this → name p = k →
                isEditable p = true
                ∧ ¬ (type p ∈ ["number"; "float"; "reference"]
                     ∧ v = VStr ""))
    ∧ calls (update this id params w).2
      = match (SequelizeModel_update values where_pk (db w)).1 with
        | Ok _ =>
            (calls w ++ [Sequelize.Update values where_pk;
                         Sequelize.FindByPk id])%list
        | Throw _ => (calls w ++ [Sequelize.Update values where_pk])%list
        end.
Proof.
  rewrite update_unfold. eexists. split.
  - intros k v. by rewrite foldl_sift_Some, Forall_forall.
  - simpl. destruct (SequelizeModel_update _ _ _).1; simpl; [|done].
    by rewrite <-(assoc_L (++)).
Qed.

(** X17: when the storage accepts the update and then finds no row for
    the primary key, [update] throws a [TypeError] (the call of [toJSON] on
    [null]); the error is not turned into a validation error. *)
Theorem update_of_missing_row_raises
    (this : Resource) (id : val) (params : ref) (w : World DB) (d : DB) :
  SequelizeModel_update
    (deref (parseParams this params (store w)).2
           (parseParams this params (store w)).1)
    (Sequelize.primaryKeyField (SequelizeModel this), id) (db w)
  = (Ok (), d) →
  (SequelizeModel_findByPk id d).1 = Ok None →
  ∃ msg, (update this id params w).1 = Throw (TypeError msg).
Proof.
  rewrite parseParams_sift. simpl. rewrite deref_fresh.
  intros Hu Hr. rewrite update_unfold. simpl. rewrite Hu. simpl. rewrite Hr.
  by eexists.
Qed.

(** X18: [create] and [update] add one object to the store, the normalised
    copy, and leave every object that was there as it was: the caller's
    parameters are never written to. *)
Theorem create_and_update_keep_the_store
    (this : Resource) (id : val) (params : ref) (w : World DB) :
  (∀ r o, store w !! r = Some o →
          store (create this params w).2 !! r = Some o
          ∧ store (update this id params w).2 !! r = Some o)
  ∧ length (store (create this params w).2) = S (length (store w))
  ∧ length (store (update this id params w).2) = S (length (store w)).
Proof.
  rewrite create_unfold, update_unfold. simpl.
  destruct (SequelizeModel_update _ _ _).1; simpl;
    rewrite ?length_app; simpl; split_and!; try lia;
    intros r o Hr; split; by apply lookup_app_l_Some.
Qed.

(** X19: [findOne] issues one [findByPk]; when the storage finds no row,
    it throws a [TypeError] (the call of [toJSON] on [null]) instead of
    answering with an empty result. *)
Theorem findOne_of_missing_row_raises
    (this : Resource) (id : val) (w : World DB) :
  (SequelizeModel_findByPk id (db w)).1 = Ok None →
  calls (findOne this id w).2 = (calls w ++ [Sequelize.FindByPk id])%list
  ∧ ∃ msg, (findOne this id w).1 = Throw (TypeError msg).
Proof.
  unfold findOne, findById, issue.
  destruct (SequelizeModel_findByPk _ _) as [r d]. simpl. intros ->.
  split; [done|]. by eexists.
Qed.

End MoreOperations.

(** X20: [count] translates the filter before it asks the storage: a
    filter that raises makes [count] throw that error with the database
    untouched, and a number clause whose value coerces to [NaN] does not
    change what is counted. *)
Theorem count_follows_the_translation
    {DB : Type} `{!Counting DB} (d : DB) :
  (∀ filter e, convertFilter filter = Throw e → count filter d = (Throw e, d))
  ∧ (∀ pre c post,
       type (property c) = "number" →
       Number (value c) = Ok NaN →
       count (Some (pre ++ c :: post)%list) d
       = count (Some (pre ++ post)%list) d).
Proof.
  split.
  - intros filter e He. unfold count. by rewrite He.
  - intros pre c post Ht Hv. unfold count.
    by rewrite (convertFilter_without_nan_clause pre post c Ht Hv).
Qed.

Lemma find_issues_one_findAll_witness :
  let options :=
    {| limit := None; offset := Some 5;
       sort := Some {| direction := Some "desc"; sortBy := Some "email" |} |} in
  let filter := Some [clause "id" "number" (VStr "7")] in
  let w := Sample.world [] in
  ∃ dir,
    let q :=
      {| Sequelize.where' := {[ KStr "id" := Equals (VNum (Finite false 7 0)) ]};
         Sequelize.limit := 20;
         Sequelize.offset := 5;
         Sequelize.order := [(Some "email", dir)] |} in
    (Some "desc" = None ∨ Some "desc" = Some "" → dir = "ASC")
    ∧ (∀ d, Some "desc" = Some d → d ≠ "" → dir = toUpperCase d)
    ∧ calls (find Sample.users filter options w).2
      = ([] ++ [Sequelize.FindAll q])%list
    ∧ store (find Sample.users filter options w).2 = []
    ∧ (find Sample.users filter options w).1
      = match (SequelizeModel_findAll q []).1 with
        | Ok rows =>
            Ok (map (fun row => {| params := row; resource := Sample.users |})
                    rows)
        | Throw e => Throw e
        end.
Proof.
  intros options filter w.
  apply (@find_issues_one_findAll _ Sample.rows Sample.users filter options w
           {| Sequelize.type := Sequelize.STRING |}
           {[ KStr "id" := Equals (VNum (Finite false 7 0)) ]}).
  - reflexivity.
  - reflexivity.
  - reflexivity.
Defined.

Lemma find_stops_on_filter_error_witness :
  find Sample.users (Some [clause "createdAt" "date" VUndefined])
       {| limit := None; offset := None;
          sort := Some {| direction := None; sortBy := Some "email" |} |}
       (Sample.world [])
  = (Throw (TypeError "Cannot read properties of undefined (reading 'from')"),
     Sample.world []).
Proof.
  apply (@find_stops_on_filter_error _ Sample.rows Sample.users
           (Some [clause "createdAt" "date" VUndefined])
           {| limit := None; offset := None;
              sort := Some {| direction := None; sortBy := Some "email" |} |}
           (Sample.world [])
           {| Sequelize.type := Sequelize.STRING |}).
  - reflexivity.
  - reflexivity.
  - reflexivity.
Defined.

Lemma update_of_missing_row_raises_witness :
  ∃ msg,
    (update Sample.users (VStr "9") 0
            (Table.world [{[ "email" := VStr "a@b.c" ]}] ∅)).1
    = Throw (TypeError msg).
Proof.
  apply (@update_of_missing_row_raises _ Table.storage Sample.users (VStr "9") 0
           (Table.world [{[ "email" := VStr "a@b.c" ]}] ∅) ∅).
  - reflexivity.
  - reflexivity.
Defined.

Lemma findOne_of_missing_row_raises_witness :
  calls (findOne Sample.users (VStr "9") (Table.world [] ∅)).2
  = ([] ++ [Sequelize.FindByPk (VStr "9")])%list
  ∧ ∃ msg,
      (findOne Sample.users (VStr "9") (Table.world [] ∅)).1
      = Throw (TypeError msg).
Proof.
  apply (@findOne_of_missing_row_raises _ Table.storage Sample.users
           (VStr "9") (Table.world [] ∅)).
  reflexivity.
Defined.
